(** * ExpoQueryRunner: transaction bookkeeping and query execution

    A shallow embedding of [src/driver/expo/ExpoQueryRunner.ts].

    The runner's mutable fields are an explicit state, the [async] methods are
    tasks over that state which also record every call made to a collaborator
    (broadcaster, logger, engine, the [ok]/[fail] pair of the promise built by
    [query]), and a rejected [await] is an error result.  The collaborators
    themselves are not part of the file; their answers are read from a record
    of outcomes, so that every statement quantified over that record holds
    for every behaviour of subscribers and engine. *)

From Stdlib Require Import ZArith List String Bool Lia.
Import ListNotations.

Local Open Scope Z_scope.

(** ** Data *)

(** A JavaScript value passed as a statement parameter or stored in a row. *)
Inductive Value : Type :=
| VNumber (n : Z)
| VString (s : string)
| VNull.

Definition Row : Type := list (string * Value).

(** What [getAllAsync] resolves with: [None] is [undefined]. *)
Definition Rows : Type := option (list Row).

(** Identity of an error object raised by a collaborator. *)
Definition Cause : Type := nat.

(** Outcome of awaiting a promise of a collaborator. *)
Inductive Awaited (A : Type) : Type :=
| Fulfilled (a : A)
| Rejected (c : Cause).

Arguments Fulfilled {A} a.
Arguments Rejected {A} c.

(** The object [transaction.runAsync] resolves with.  [changes] is [Some n]
    when the object has an own property [changes]; [lastInsertRowId] is
    [None] when reading the property gives [undefined]. *)
Record StatementHandle : Type := {
  changes : option Z;
  lastInsertRowId : option Z;
  handle_getAllAsync : string -> list Value -> Awaited Rows
}.

(** [interface ITransaction] *)
Record ITransaction : Type := {
  runAsync : string -> list Value -> Awaited StatementHandle;
  getAllAsync : string -> list Value -> Awaited Rows
}.

Inductive Error : Type :=
| TransactionNotStartedError
| QueryRunnerAlreadyReleasedError
| QueryFailedError (query : string) (parameters : option (list Value))
                   (driverError : Error)
| Thrown (c : Cause).

(** The value of [result.raw]: the copied row array or the inserted row id. *)
Inductive Raw : Type :=
| RawRows (resultSet : list Row)
| RawId (id : Z).

(** Modelled from the spec: class [QueryResult] ([query-runner/QueryResult]),
    of which the source only uses the constructor and three fields; the spec
    gives it as [{ affected: optional integer, raw: sequence of row | scalar,
    records: optional sequence of row }], every field absent when fresh. *)
Record QueryResult : Type := {
  affected : option Z;
  raw : option Raw;
  records : option (list Row)
}.

Definition newQueryResult : QueryResult :=
  {| affected := None; raw := None; records := None |}.

(** What [ok] is called with. *)
Inductive Resolution : Type :=
| Structured (result : QueryResult)
| Plain (value : Raw).

Inductive BroadcastName : Type :=
| BeforeTransactionStart
| AfterTransactionStart
| BeforeTransactionCommit
| AfterTransactionCommit
| BeforeTransactionRollback
| AfterTransactionRollback.

(** Calls made by the runner, in program order. *)
Inductive Event : Type :=
| Broadcast (name : BroadcastName)
| LogQuery (query : string) (parameters : option (list Value))
| BroadcastBeforeQuery (query : string) (parameters : option (list Value))
| RunAsync (source : string) (params : list Value)
| HandleGetAll (source : string) (params : list Value)
| TransactionGetAll (source : string) (params : list Value)
| BroadcastAfterQuery (query : string) (parameters : option (list Value))
                      (success : bool) (executionTime : option Z)
                      (rows : Rows) (error : option Error)
| Wait
| LogQuerySlow (time : Z) (query : string) (parameters : option (list Value))
| LogQueryError (error : Error) (query : string)
                (parameters : option (list Value))
| PromiseOk (value : Resolution)
| PromiseFail (error : Error).

(** The fields of the runner that the methods read and write. *)
Record Runner : Type := {
  isReleased : bool;
  isTransactionActive : bool;
  transactionDepth : Z;
  transaction : option ITransaction
}.

(** Modelled from the spec: the field initialisers of the base query runner
    (not in the file): "initial state inactive, depth 0". *)
Definition initialRunner : Runner :=
  {| isReleased := false;
     isTransactionActive := false;
     transactionDepth := 0;
     transaction := None |}.

Definition set_isTransactionActive (b : bool) (r : Runner) : Runner :=
  {| isReleased := isReleased r;
     isTransactionActive := b;
     transactionDepth := transactionDepth r;
     transaction := transaction r |}.

Definition set_transactionDepth (d : Z) (r : Runner) : Runner :=
  {| isReleased := isReleased r;
     isTransactionActive := isTransactionActive r;
     transactionDepth := d;
     transaction := transaction r |}.

Definition set_transaction (t : option ITransaction) (r : Runner) : Runner :=
  {| isReleased := isReleased r;
     isTransactionActive := isTransactionActive r;
     transactionDepth := transactionDepth r;
     transaction := t |}.

(** The collaborators of one call. *)
Record Collaborators : Type := {
  (** [broadcaster.broadcast(name)]: [Some c] when a subscriber raises [c] *)
  subscribers : BroadcastName -> option Cause;
  (** [broadcasterResult.wait()] of the try block and of the catch block *)
  wait_after_query : option Cause;
  wait_after_error : option Cause;
  (** the engine: [Some c] when the scope fails before the work callback
      runs; otherwise the transaction object handed to the work callback *)
  scope_failure : option Cause;
  scope_transaction : ITransaction;
  (** the two readings of [+new Date()] *)
  queryStartTime : Z;
  queryEndTime : Z;
  (** [driver.options.maxQueryExecutionTime] *)
  maxQueryExecutionTime : option Z
}.

(** ** Tasks: state, trace and rejection *)

Record Run (A : Type) : Type := {
  final : Runner;
  trace : list Event;
  outcome : Error + A
}.

Arguments final {A} _.
Arguments trace {A} _.
Arguments outcome {A} _.

Definition Task (A : Type) : Type := Runner -> Run A.

Definition ret {A : Type} (a : A) : Task A :=
  fun r => {| final := r; trace := []; outcome := inr a |}.

Definition throw {A : Type} (e : Error) : Task A :=
  fun r => {| final := r; trace := []; outcome := inl e |}.

Definition bind {A B : Type} (m : Task A) (f : A -> Task B) : Task B :=
  fun r =>
    match m r with
    | {| final := r1; trace := t1; outcome := inl e |} =>
        {| final := r1; trace := t1; outcome := inl e |}
    | {| final := r1; trace := t1; outcome := inr a |} =>
        match f a r1 with
        | {| final := r2; trace := t2; outcome := o2 |} =>
            {| final := r2; trace := t1 ++ t2; outcome := o2 |}
        end
    end.

(** [try { m } catch (err) { handler err }]: the fields written by [m]
    before it raised stay written. *)
Definition try_catch {A : Type} (m : Task A) (handler : Error -> Task A)
  : Task A :=
  fun r =>
    match m r with
    | {| final := r1; trace := t1; outcome := inl e |} =>
        match handler e r1 with
        | {| final := r2; trace := t2; outcome := o2 |} =>
            {| final := r2; trace := t1 ++ t2; outcome := o2 |}
        end
    | {| final := r1; trace := t1; outcome := inr a |} =>
        {| final := r1; trace := t1; outcome := inr a |}
    end.

Definition get : Task Runner :=
  fun r => {| final := r; trace := []; outcome := inr r |}.

Definition modify (f : Runner -> Runner) : Task unit :=
  fun r => {| final := f r; trace := []; outcome := inr tt |}.

Definition emit (e : Event) : Task unit :=
  fun r => {| final := r; trace := [e]; outcome := inr tt |}.

Notation "x <- m ;; k" := (bind m (fun x => k))
  (at level 61, m at next level, right associativity).
Notation "m ;; k" := (bind m (fun _ => k))
  (at level 61, right associativity).

(** [await p] for a promise of a collaborator. *)
Definition await {A : Type} (p : Awaited A) : Task A :=
  match p with
  | Fulfilled a => ret a
  | Rejected c => throw (Thrown c)
  end.

Definition await_done (p : option Cause) : Task unit :=
  match p with
  | None => ret tt
  | Some c => throw (Thrown c)
  end.

(** ** Transaction controller *)

Section Controller.

Variable env : Collaborators.

(** [await this.broadcaster.broadcast(name)] *)
Definition broadcast (name : BroadcastName) : Task unit :=
  emit (Broadcast name) ;;
  await_done (subscribers env name).

Definition startTransaction : Task unit :=
  modify (set_isTransactionActive true) ;;
  try_catch (broadcast BeforeTransactionStart)
            (fun err =>
               modify (set_isTransactionActive false) ;;
               throw err) ;;
  modify (fun r => set_transactionDepth (transactionDepth r + 1) r) ;;
  broadcast AfterTransactionStart.

(** The guard shared by commit and rollback:
    [!this.isTransactionActive && typeof this.transaction === "undefined"] *)
Definition notStarted (r : Runner) : bool :=
  negb (isTransactionActive r) &&
  match transaction r with
  | None => true
  | Some _ => false
  end.

Definition commitTransaction : Task unit :=
  r <- get ;;
  if notStarted r then throw TransactionNotStartedError
  else
    broadcast BeforeTransactionCommit ;;
    modify (set_transaction None) ;;
    modify (set_isTransactionActive false) ;;
    modify (fun r => set_transactionDepth (transactionDepth r - 1) r) ;;
    broadcast AfterTransactionCommit.

Definition rollbackTransaction : Task unit :=
  r <- get ;;
  if notStarted r then throw TransactionNotStartedError
  else
    broadcast BeforeTransactionRollback ;;
    modify (set_transaction None) ;;
    modify (set_isTransactionActive false) ;;
    modify (fun r => set_transactionDepth (transactionDepth r - 1) r) ;;
    broadcast AfterTransactionRollback.

End Controller.

(** ** Query executor *)

(** [parameters || []] *)
Definition params_or_empty (parameters : option (list Value)) : list Value :=
  match parameters with
  | Some ps => ps
  | None => []
  end.

(** The loop [for (let i = 0; i < rows.length; i++) resultSet.push(rows[i])],
    [fuel] counting the iterations left. *)
Fixpoint pushRows (rows : list Row) (i : nat) (fuel : nat)
  (resultSet : list Row) : list Row :=
  match fuel with
  | O => resultSet
  | S fuel' =>
      match nth_error rows i with
      | Some row => pushRows rows (S i) fuel' (resultSet ++ [row])
      | None => resultSet
      end
  end.

Definition copyRows (rows : list Row) : list Row :=
  pushRows rows 0 (List.length rows) [].

(** [sql.startsWith("INSERT INTO")] *)
Definition isInsert (sql : string) : bool :=
  String.prefix "INSERT INTO" sql.

(** [t?.lastInsertRowId] *)
Definition insertedId (t : option StatementHandle) : option Z :=
  match t with
  | Some h => lastInsertRowId h
  | None => None
  end.

Definition set_affected (n : Z) (res : QueryResult) : QueryResult :=
  {| affected := Some n; raw := raw res; records := records res |}.

Definition set_raw (v : option Raw) (res : QueryResult) : QueryResult :=
  {| affected := affected res; raw := v; records := records res |}.

Definition set_rows (resultSet : list Row) (res : QueryResult) : QueryResult :=
  {| affected := affected res;
     raw := Some (RawRows resultSet);
     records := Some resultSet |}.

(** Lines 218-237: the three assignments to the fresh [QueryResult]. *)
Definition shapeResult (t : option StatementHandle) (rows : Rows)
  (sql : string) : QueryResult :=
  let result := newQueryResult in
  let result :=
    match t with
    | Some h =>
        match changes h with
        | Some n => set_affected n result
        | None => result
        end
    | None => result
    end in
  let result :=
    match rows with
    | Some (row :: more) => set_rows (copyRows (row :: more)) result
    | _ => result
    end in
  if isInsert sql
  then set_raw (option_map RawId (insertedId t)) result
  else result.

(** [result?.raw || []]: an array is truthy, a number is truthy unless it
    is 0, [undefined] is not. *)
Definition raw_or_empty (v : option Raw) : Raw :=
  match v with
  | Some (RawRows resultSet) => RawRows resultSet
  | Some (RawId id) => if id =? 0 then RawRows [] else RawId id
  | None => RawRows []
  end.

Definition resolution (useStructuredResult : bool) (result : QueryResult)
  : Resolution :=
  if useStructuredResult then Structured result
  else Plain (raw_or_empty (raw result)).

(** [maxQueryExecutionTime && queryExecutionTime > maxQueryExecutionTime] *)
Definition isSlow (maxQueryExecutionTime : option Z) (queryExecutionTime : Z)
  : bool :=
  match maxQueryExecutionTime with
  | Some limit => negb (limit =? 0) && (limit <? queryExecutionTime)
  | None => false
  end.

Section Executor.

Variable env : Collaborators.
Variable sql : string.
Variable parameters : option (list Value).
Variable useStructuredResult : bool.

(** Lines 174-187.  [t] is declared outside the inner [try], so it keeps the
    statement handle when only [t.getAllAsync] raises. *)
Definition fetchDirectly (txn : ITransaction) (t : option StatementHandle)
  : Task (option StatementHandle * Rows) :=
  emit (TransactionGetAll sql (params_or_empty parameters)) ;;
  rows <- await (getAllAsync txn sql (params_or_empty parameters)) ;;
  ret (t, rows).

Definition runThenFetch (txn : ITransaction)
  : Task (option StatementHandle * Rows) :=
  emit (RunAsync sql (params_or_empty parameters)) ;;
  match runAsync txn sql (params_or_empty parameters) with
  | Rejected _ => fetchDirectly txn None
  | Fulfilled t =>
      emit (HandleGetAll sql (params_or_empty parameters)) ;;
      match handle_getAllAsync t sql (params_or_empty parameters) with
      | Rejected _ => fetchDirectly txn (Some t)
      | Fulfilled rows => ret (Some t, rows)
      end
  end.

Definition queryExecutionTime : Z := queryEndTime env - queryStartTime env.

(** Lines 173-243: the body of the outer [try]. *)
Definition tryBlock (txn : ITransaction) : Task unit :=
  fetched <- runThenFetch txn ;;
  emit (BroadcastAfterQuery sql parameters true (Some queryExecutionTime)
          (snd fetched) None) ;;
  emit Wait ;;
  await_done (wait_after_query env) ;;
  (if isSlow (maxQueryExecutionTime env) queryExecutionTime
   then emit (LogQuerySlow queryExecutionTime sql parameters)
   else ret tt) ;;
  emit (PromiseOk (resolution useStructuredResult
                     (shapeResult (fst fetched) (snd fetched) sql))).

(** Lines 244-263: the outer [catch (err)]. *)
Definition catchBlock (err : Error) : Task unit :=
  emit (LogQueryError err sql parameters) ;;
  emit (BroadcastAfterQuery sql parameters false None None (Some err)) ;;
  emit Wait ;;
  await_done (wait_after_error env) ;;
  emit (PromiseFail (QueryFailedError sql parameters err)).

(** Lines 169-172. *)
Definition implicitStart (txn : ITransaction) : Task unit :=
  r <- get ;;
  match transaction r with
  | None =>
      startTransaction env ;;
      modify (set_transaction (Some txn))
  | Some _ => ret tt
  end.

(** Lines 173-263: the outer [try] statement. *)
Definition guarded (txn : ITransaction) : Task unit :=
  try_catch (tryBlock txn) catchBlock.

(** The work callback. *)
Definition work (txn : ITransaction) : Task unit :=
  implicitStart txn ;;
  guarded txn.

(** The failure callback. *)
Definition onFailure (err : Error) : Task unit :=
  rollbackTransaction env ;;
  emit (PromiseFail err).

(** The completion callback. *)
Definition onComplete : Task unit :=
  modify (set_isTransactionActive false) ;;
  modify (set_transaction None).

(** A callback whose promise nobody awaits: a rejection goes nowhere. *)
Definition detached (callback : Task unit) : Task unit :=
  try_catch callback (fun _ => ret tt).

(** Modelled from the spec: [withExclusiveTransactionAsync] of the engine
    connection, called with three callbacks; the spec's contract is that it
    "schedules work(transactionHandle) inside a serialized exclusive context;
    guarantees exactly one of work's resolution or onFailure fires per
    invocation, followed always by onComplete". *)
Definition withExclusiveTransactionAsync
  (work : ITransaction -> Task unit) (onFailure : Error -> Task unit)
  (onComplete : Task unit) : Task unit :=
  match scope_failure env with
  | Some c => detached (onFailure (Thrown c)) ;; onComplete
  | None =>
      try_catch (work (scope_transaction env))
                (fun err => detached (onFailure err)) ;;
      onComplete
  end.

(** [query(sql, parameters, useStructuredResult)]; the source names its
    first parameter [query] too.  A rejection of the returned task is the
    [throw] of the first line; the promise built by [new Promise] is settled
    by the [PromiseOk] and [PromiseFail] calls.

    Modelled from the spec: [this.connect()], inherited from a class that is
    not in the file; step 1 of the spec's algorithm, "Acquire the live
    connection handle", taken as a step that returns and makes no call that
    is recorded here. *)
Definition query : Task unit :=
  r <- get ;;
  if isReleased r then throw QueryRunnerAlreadyReleasedError
  else
    emit (LogQuery sql parameters) ;;
    emit (BroadcastBeforeQuery sql parameters) ;;
    withExclusiveTransactionAsync work onFailure onComplete.

End Executor.

(** ** Sequences of calls *)

Inductive Call : Type :=
| CallStart
| CallCommit
| CallRollback
| CallQuery (sql : string) (parameters : option (list Value))
            (useStructuredResult : bool).

Definition perform (env : Collaborators) (c : Call) : Task unit :=
  match c with
  | CallStart => startTransaction env
  | CallCommit => commitTransaction env
  | CallRollback => rollbackTransaction env
  | CallQuery sql parameters useStructuredResult =>
      query env sql parameters useStructuredResult
  end.

(** The runner after a sequence of calls, each with its own collaborators,
    one call finishing before the next begins. *)
Fixpoint performAll (calls : list (Collaborators * Call)) (r : Runner)
  : Runner :=
  match calls with
  | [] => r
  | (env, c) :: rest => performAll rest (final (perform env c r))
  end.

Definition reachable (r : Runner) : Prop :=
  exists calls, r = performAll calls initialRunner.

(** ** Reading a trace *)

Definition isSettlement (e : Event) : bool :=
  match e with
  | PromiseOk _ | PromiseFail _ => true
  | _ => false
  end.

(** The calls of [ok] and [fail], in order. *)
Definition settlements (tr : list Event) : list Event :=
  filter isSettlement tr.

(** The part of a trace before the statement is submitted to the engine. *)
Fixpoint beforeSubmission (tr : list Event) : list Event :=
  match tr with
  | [] => []
  | RunAsync _ _ :: _ => []
  | e :: rest => e :: beforeSubmission rest
  end.

Definition isSubmission (e : Event) : bool :=
  match e with
  | RunAsync _ _ => true
  | _ => false
  end.

Definition isStartEvent (e : Event) : bool :=
  match e with
  | Broadcast BeforeTransactionStart
  | Broadcast AfterTransactionStart => true
  | _ => false
  end.

(** The calls the failure callback can make. *)
Definition isFailureEvent (e : Event) : bool :=
  match e with
  | Broadcast BeforeTransactionRollback
  | Broadcast AfterTransactionRollback
  | PromiseFail _ => true
  | _ => false
  end.

(** The calls made between the outer [try] and the end of its [catch]. *)
Definition isStatementEvent (e : Event) : bool :=
  match e with
  | Broadcast _ | LogQuery _ _ | BroadcastBeforeQuery _ _ => false
  | _ => true
  end.

(** The calls that reach the engine. *)
Definition isEngineCall (e : Event) : bool :=
  match e with
  | RunAsync _ _ | HandleGetAll _ _ | TransactionGetAll _ _ => true
  | _ => false
  end.

Definition isSlowLog (e : Event) : bool :=
  match e with
  | LogQuerySlow _ _ _ => true
  | _ => false
  end.

(** What the two-path fetch gives; it neither reads nor writes the runner. *)
Definition fetchOutcome (env : Collaborators) (sql : string)
  (parameters : option (list Value))
  : Error + (option StatementHandle * Rows) :=
  outcome (runThenFetch sql parameters (scope_transaction env) initialRunner).

(** The engine calls of the two-path fetch, in order. *)
Definition fetchTrace (env : Collaborators) (sql : string)
  (parameters : option (list Value)) : list Event :=
  trace (runThenFetch sql parameters (scope_transaction env) initialRunner).

(** The statement handle the query holds after the fetch: [t] is assigned
    as soon as [runAsync] resolves. *)
Definition statementOf (env : Collaborators) (sql : string)
  (parameters : option (list Value)) : option StatementHandle :=
  match runAsync (scope_transaction env) sql (params_or_empty parameters) with
  | Fulfilled h => Some h
  | Rejected _ => None
  end.

(** The primary path raised: [runAsync] or the handle's [getAllAsync]. *)
Definition primaryRaised (env : Collaborators) (sql : string)
  (parameters : option (list Value)) : bool :=
  match runAsync (scope_transaction env) sql (params_or_empty parameters) with
  | Fulfilled h =>
      match handle_getAllAsync h sql (params_or_empty parameters) with
      | Fulfilled _ => false
      | Rejected _ => true
      end
  | Rejected _ => true
  end.

(** The same collaborators with other clock readings and another
    slow-query threshold. *)
Definition retimed (env : Collaborators) (startTime endTime : Z)
  (limit : option Z) : Collaborators :=
  {| subscribers := subscribers env;
     wait_after_query := wait_after_query env;
     wait_after_error := wait_after_error env;
     scope_failure := scope_failure env;
     scope_transaction := scope_transaction env;
     queryStartTime := startTime;
     queryEndTime := endTime;
     maxQueryExecutionTime := limit |}.

(** ** Sample collaborators *)

(** A statement handle that reports [n] changes and row id [id], and through
    which no rows can be fetched. *)
Definition bareStatement (n id : Z) : StatementHandle :=
  {| changes := Some n;
     lastInsertRowId := Some id;
     handle_getAllAsync := fun _ _ => Rejected 1%nat |}.

(** A statement handle through which [rows] are fetched. *)
Definition fetchingStatement (n id : Z) (rows : Rows) : StatementHandle :=
  {| changes := Some n;
     lastInsertRowId := Some id;
     handle_getAllAsync := fun _ _ => Fulfilled rows |}.

(** A transaction object that accepts every statement. *)
Definition acceptingTransaction (h : StatementHandle) (rows : Rows)
  : ITransaction :=
  {| runAsync := fun _ _ => Fulfilled h;
     getAllAsync := fun _ _ => Fulfilled rows |}.

(** A transaction object whose [runAsync] raises and whose [getAllAsync]
    gives [rows]. *)
Definition fetchOnlyTransaction (rows : Rows) : ITransaction :=
  {| runAsync := fun _ _ => Rejected 2%nat;
     getAllAsync := fun _ _ => Fulfilled rows |}.

(** Subscribers that all finish, an engine that opens its scope, and a query
    that takes [elapsed] milliseconds against the threshold [limit]. *)
Definition calm (txn : ITransaction) (elapsed : Z) (limit : option Z)
  : Collaborators :=
  {| subscribers := fun _ => None;
     wait_after_query := None;
     wait_after_error := None;
     scope_failure := None;
     scope_transaction := txn;
     queryStartTime := 1000;
     queryEndTime := 1000 + elapsed;
     maxQueryExecutionTime := limit |}.

(** The same, except that a subscriber of [name] raises. *)
Definition raisingOn (name : BroadcastName -> bool) (txn : ITransaction)
  : Collaborators :=
  {| subscribers := fun n => if name n then Some 3%nat else None;
     wait_after_query := None;
     wait_after_error := None;
     scope_failure := None;
     scope_transaction := txn;
     queryStartTime := 1000;
     queryEndTime := 1000;
     maxQueryExecutionTime := None |}.

Definition isBeforeStart (n : BroadcastName) : bool :=
  match n with
  | BeforeTransactionStart => true
  | _ => false
  end.

Definition oneRow : Row := [("x"%string, VNumber 1)].

Definition selectTransaction : ITransaction :=
  acceptingTransaction (fetchingStatement 0 0 (Some [oneRow])) (Some [oneRow]).

Definition insertTransaction (id : Z) : ITransaction :=
  acceptingTransaction (bareStatement 1 id) (Some []).


Definition insertSql : string := "INSERT INTO t (x) VALUES (1)".

Definition selectSql : string := "SELECT x FROM t".

(** A runner on which [startTransaction] has been called once. *)
Definition startedRunner : Runner :=
  final (startTransaction (calm selectTransaction 0 None) initialRunner).

(** What holds of the runner whenever a method of the controller is
    entered or left. *)
Definition coherent (r : Runner) : Prop :=
  0 <= transactionDepth r /\
  (isTransactionActive r = true \/ transaction r <> None ->
   0 < transactionDepth r).

(** A task that maintains [P], whether it returns or raises. *)
Definition keeps (P : Runner -> Prop) {A : Type} (m : Task A) : Prop :=
  forall r, P r -> P (final (m r)).

(** What holds of the runner between two calls. *)
Definition settled (r : Runner) : Prop :=
  transaction r = None /\
  (isTransactionActive r = true -> 0 < transactionDepth r) /\
  0 <= transactionDepth r.

(** The implicit start returns exactly when it has nothing to do or both
    broadcasts go through. *)
Definition startGoesThrough (env : Collaborators) (r : Runner) : Prop :=
  transaction r = None ->
  subscribers env BeforeTransactionStart = None /\
  subscribers env AfterTransactionStart = None.

Definition startTrace (r : Runner) : list Event :=
  match transaction r with
  | None => [Broadcast BeforeTransactionStart; Broadcast AfterTransactionStart]
  | Some _ => []
  end.

(** ** Further readings of the code *)

(** The three assignments commit and rollback make between their two
    broadcasts. *)
Definition closeBookkeeping (r : Runner) : Runner :=
  set_transactionDepth (transactionDepth r - 1)
    (set_isTransactionActive false (set_transaction None r)).

(** The error the outer [try] block raises, if any: the error of the
    two-path fetch, else that of the await of the after-query broadcast. *)
Definition tryError (env : Collaborators) (sql : string)
  (parameters : option (list Value)) : option Error :=
  match fetchOutcome env sql parameters with
  | inl e => Some e
  | inr _ =>
      match wait_after_query env with
      | Some c => Some (Thrown c)
      | None => None
      end
  end.

(** Where the failure callback is entered, if it is: with which error and
    in which runner. *)
Definition failureEntry (env : Collaborators) (sql : string)
  (parameters : option (list Value)) (useStructuredResult : bool)
  (r : Runner) : option (Error * Runner) :=
  match scope_failure env with
  | Some c => Some (Thrown c, r)
  | None =>
      let w := work env sql parameters useStructuredResult
                 (scope_transaction env) r in
      match outcome w with
      | inl e => Some (e, final w)
      | inr _ => None
      end
  end.

(** The runner the implicit start leaves when it returns. *)
Definition afterImplicitStart (txn : ITransaction) (r : Runner) : Runner :=
  match transaction r with
  | None =>
      set_transaction (Some txn)
        (set_transactionDepth (transactionDepth r + 1)
           (set_isTransactionActive true r))
  | Some _ => r
  end.

(** Subscribers that raise on the await of the broadcast made in the
    [catch] block, with a transaction object on which every call raises. *)
Definition raisingCatchWait : Collaborators :=
  {| subscribers := fun _ => None;
     wait_after_query := None;
     wait_after_error := Some 8%nat;
     scope_failure := None;
     scope_transaction :=
       {| runAsync := fun _ _ => Rejected 6%nat;
          getAllAsync := fun _ _ => Rejected 7%nat |};
     queryStartTime := 1000;
     queryEndTime := 1000;
     maxQueryExecutionTime := None |}.

Definition isQuery (c : Call) : bool :=
  match c with
  | CallQuery _ _ _ => true
  | _ => false
  end.

(** A commit broadcast read as the rollback broadcast of the same side. *)
Definition asRollback (e : Event) : Event :=
  match e with
  | Broadcast BeforeTransactionCommit => Broadcast BeforeTransactionRollback
  | Broadcast AfterTransactionCommit => Broadcast AfterTransactionRollback
  | other => other
  end.

Definition isRollbackBroadcast (e : Event) : bool :=
  match e with
  | Broadcast BeforeTransactionRollback
  | Broadcast AfterTransactionRollback => true
  | _ => false
  end.

Definition isAfterStart (n : BroadcastName) : bool :=
  match n with
  | AfterTransactionStart => true
  | _ => false
  end.

Definition isBeforeRollback (n : BroadcastName) : bool :=
  match n with
  | BeforeTransactionRollback => true
  | _ => false
  end.

Definition isAfterRollback (n : BroadcastName) : bool :=
  match n with
  | AfterTransactionRollback => true
  | _ => false
  end.

Definition isBeforeCommit (n : BroadcastName) : bool :=
  match n with
  | BeforeTransactionCommit => true
  | _ => false
  end.

Definition isAfterCommit (n : BroadcastName) : bool :=
  match n with
  | AfterTransactionCommit => true
  | _ => false
  end.

(** A transaction object on which every call raises. *)
Definition brokenTransaction : ITransaction :=
  {| runAsync := fun _ _ => Rejected 6%nat;
     getAllAsync := fun _ _ => Rejected 7%nat |}.

(** ** Proof support *)

Ltac simpl_tasks :=
  cbv beta iota zeta delta
    [perform query withExclusiveTransactionAsync detached onComplete
     onFailure work guarded implicitStart catchBlock tryBlock runThenFetch
     fetchDirectly commitTransaction rollbackTransaction startTransaction
     broadcast await await_done bind try_catch ret throw emit modify get
     final trace outcome fst snd notStarted negb andb
     set_isTransactionActive set_transactionDepth set_transaction
     isReleased isTransactionActive transactionDepth transaction];
  cbn [app].

Ltac case_collaborator :=
  match goal with
  | |- context [match subscribers ?e ?n with _ => _ end] =>
      destruct (subscribers e n) eqn:?
  | |- context [match scope_failure ?e with _ => _ end] =>
      destruct (scope_failure e) eqn:?
  | |- context [match wait_after_query ?e with _ => _ end] =>
      destruct (wait_after_query e) eqn:?
  | |- context [match wait_after_error ?e with _ => _ end] =>
      destruct (wait_after_error e) eqn:?
  | |- context [match runAsync ?t ?q ?p with _ => _ end] =>
      destruct (runAsync t q p) eqn:?
  | |- context [match handle_getAllAsync ?h ?q ?p with _ => _ end] =>
      destruct (handle_getAllAsync h q p) eqn:?
  | |- context [match getAllAsync ?t ?q ?p with _ => _ end] =>
      destruct (getAllAsync t q p) eqn:?
  | |- context [if isSlow ?m ?t then _ else _] =>
      destruct (isSlow m t) eqn:?
  end.

Ltac run_cases := simpl_tasks; repeat (case_collaborator; simpl_tasks).

(** ** Running a task step by step *)

Lemma bind_eq {A B : Type} (m : Task A) (f : A -> Task B) (r : Runner) :
  bind m f r =
    match outcome (m r) with
    | inl e =>
        {| final := final (m r); trace := trace (m r); outcome := inl e |}
    | inr a =>
        {| final := final (f a (final (m r)));
           trace := trace (m r) ++ trace (f a (final (m r)));
           outcome := outcome (f a (final (m r))) |}
    end.
Proof.
  unfold bind. destruct (m r) as [r1 t1 [e | a]]; cbn; [reflexivity |].
  destruct (f a r1); reflexivity.
Qed.

Lemma try_catch_eq {A : Type} (m : Task A) (handler : Error -> Task A)
  (r : Runner) :
  try_catch m handler r =
    match outcome (m r) with
    | inl e =>
        {| final := final (handler e (final (m r)));
           trace := trace (m r) ++ trace (handler e (final (m r)));
           outcome := outcome (handler e (final (m r))) |}
    | inr a =>
        {| final := final (m r); trace := trace (m r); outcome := inr a |}
    end.
Proof.
  unfold try_catch. destruct (m r) as [r1 t1 [e | a]]; cbn; [| reflexivity].
  destruct (handler e r1); reflexivity.
Qed.

(** ** The controller, call by call *)

Lemma notStarted_spec (r : Runner) :
  notStarted r = true <-> isTransactionActive r = false /\ transaction r = None.
Proof.
  unfold notStarted.
  destruct (isTransactionActive r), (transaction r); cbn;
    intuition discriminate.
Qed.

Lemma commitTransaction_refused (env : Collaborators) (r : Runner) :
  notStarted r = true ->
  commitTransaction env r =
    {| final := r; trace := []; outcome := inl TransactionNotStartedError |}.
Proof.
  intros H. unfold commitTransaction, bind, get, throw. cbn. rewrite H.
  reflexivity.
Qed.

Lemma rollbackTransaction_refused (env : Collaborators) (r : Runner) :
  notStarted r = true ->
  rollbackTransaction env r =
    {| final := r; trace := []; outcome := inl TransactionNotStartedError |}.
Proof.
  intros H. unfold rollbackTransaction, bind, get, throw. cbn. rewrite H.
  reflexivity.
Qed.

Lemma commitTransaction_accepted (env : Collaborators) (r : Runner) :
  notStarted r = false ->
  outcome (commitTransaction env r) <> inl TransactionNotStartedError /\
  trace (commitTransaction env r) <> [].
Proof.
  intros H. unfold commitTransaction, bind, get. cbn. rewrite H.
  run_cases; split; discriminate.
Qed.

Lemma rollbackTransaction_accepted (env : Collaborators) (r : Runner) :
  notStarted r = false ->
  outcome (rollbackTransaction env r) <> inl TransactionNotStartedError /\
  trace (rollbackTransaction env r) <> [].
Proof.
  intros H. unfold rollbackTransaction, bind, get. cbn. rewrite H.
  run_cases; split; discriminate.
Qed.

(** ** Tasks that maintain a property of the runner *)

Section Keeps.

Variable P : Runner -> Prop.

Lemma keeps_ret {A : Type} (a : A) : keeps P (ret a).
Proof. intros r H. exact H. Qed.

Lemma keeps_throw {A : Type} (e : Error) : keeps P (@throw A e).
Proof. intros r H. exact H. Qed.

Lemma keeps_emit (e : Event) : keeps P (emit e).
Proof. intros r H. exact H. Qed.

Lemma keeps_get : keeps P get.
Proof. intros r H. exact H. Qed.

Lemma keeps_await {A : Type} (p : Awaited A) : keeps P (await p).
Proof. intros r H. destruct p; exact H. Qed.

Lemma keeps_await_done (p : option Cause) : keeps P (await_done p).
Proof. intros r H. destruct p; exact H. Qed.

Lemma keeps_bind {A B : Type} (m : Task A) (f : A -> Task B) :
  keeps P m -> (forall a, keeps P (f a)) -> keeps P (bind m f).
Proof.
  intros Hm Hf r H. rewrite bind_eq.
  specialize (Hm r H). destruct (outcome (m r)) as [e | a]; cbn.
  - exact Hm.
  - apply Hf, Hm.
Qed.

Lemma keeps_try_catch {A : Type} (m : Task A) (handler : Error -> Task A) :
  keeps P m -> (forall e, keeps P (handler e)) -> keeps P (try_catch m handler).
Proof.
  intros Hm Hh r H. rewrite try_catch_eq.
  specialize (Hm r H). destruct (outcome (m r)) as [e | a]; cbn.
  - apply Hh, Hm.
  - exact Hm.
Qed.

End Keeps.

Ltac keeps_step :=
  first
    [ apply keeps_bind; [| intros ? ]
    | apply keeps_try_catch; [| intros ? ]
    | apply keeps_ret | apply keeps_throw | apply keeps_emit
    | apply keeps_get | apply keeps_await | apply keeps_await_done ].

(** The two-path fetch, the try block and the catch block never write a
    field of the runner. *)
Lemma guarded_keeps (P : Runner -> Prop) (env : Collaborators) (sql : string)
  (parameters : option (list Value)) (useStructuredResult : bool)
  (txn : ITransaction) :
  keeps P (guarded env sql parameters useStructuredResult txn).
Proof.
  unfold guarded, tryBlock, catchBlock, runThenFetch, fetchDirectly.
  repeat keeps_step.
  - destruct (runAsync txn sql (params_or_empty parameters)) as [h | c].
    + repeat keeps_step.
      destruct (handle_getAllAsync h sql (params_or_empty parameters));
        repeat keeps_step.
    + repeat keeps_step.
  - destruct (isSlow _ _); repeat keeps_step.
Qed.

(** ** Invariant of the bookkeeping *)

Lemma settled_coherent (r : Runner) : settled r -> coherent r.
Proof.
  unfold settled, coherent. intros (Ht & Ha & Hd). split; [exact Hd |].
  intros [H | H]; [auto | congruence].
Qed.

Lemma startTransaction_coherent (env : Collaborators) :
  keeps coherent (startTransaction env).
Proof.
  intros [released active depth txn]. unfold coherent. cbn.
  intros (Hd & Ha). run_cases; (split; [lia |]); intros [H | H];
    try discriminate; try lia; apply Ha; auto.
Qed.

Lemma commitTransaction_coherent (env : Collaborators) :
  keeps coherent (commitTransaction env).
Proof.
  intros [released active depth txn]. unfold coherent, commitTransaction. cbn.
  intros (Hd & Ha).
  unfold bind, get. cbn. unfold notStarted. cbn.
  destruct active, txn; run_cases; try (split; [lia | exact Ha]);
    (assert (0 < depth) by (apply Ha; auto; right; discriminate));
    (split; [lia |]); intros [H' | H']; try discriminate; congruence.
Qed.

Lemma rollbackTransaction_coherent (env : Collaborators) :
  keeps coherent (rollbackTransaction env).
Proof.
  intros [released active depth txn]. unfold coherent, rollbackTransaction. cbn.
  intros (Hd & Ha).
  unfold bind, get. cbn. unfold notStarted. cbn.
  destruct active, txn; run_cases; try (split; [lia | exact Ha]);
    (assert (0 < depth) by (apply Ha; auto; right; discriminate));
    (split; [lia |]); intros [H' | H']; try discriminate; congruence.
Qed.

Lemma implicitStart_coherent (env : Collaborators) (txn : ITransaction) :
  keeps coherent (implicitStart env txn).
Proof.
  intros r Hr. unfold implicitStart. rewrite bind_eq.
  cbn [get outcome final trace app].
  destruct (transaction r) eqn:Ht.
  - exact Hr.
  - pose proof (startTransaction_coherent env r Hr) as Hs.
    rewrite bind_eq. destruct (outcome (startTransaction env r)) eqn:Ho; cbn.
    + exact Hs.
    + assert (0 < transactionDepth (final (startTransaction env r))) as Hpos.
      { destruct r as [released active depth t]. cbn in Ht. subst t.
        destruct Hr as [Hd _]. cbn in Hd.
        revert Ho. run_cases; intros; try discriminate; lia. }
      destruct Hs as [Hd Ha]. split; cbn; [exact Hd | intros _; exact Hpos].
Qed.

Lemma work_coherent (env : Collaborators) (sql : string)
  (parameters : option (list Value)) (useStructuredResult : bool)
  (txn : ITransaction) :
  keeps coherent (work env sql parameters useStructuredResult txn).
Proof.
  unfold work. apply keeps_bind.
  - apply implicitStart_coherent.
  - intros _. apply guarded_keeps.
Qed.

Lemma onFailure_coherent (env : Collaborators) (err : Error) :
  keeps coherent (onFailure env err).
Proof.
  unfold onFailure. apply keeps_bind.
  - apply rollbackTransaction_coherent.
  - intros _. apply keeps_emit.
Qed.

(** ** The engine scope *)

Lemma detached_returns (callback : Task unit) (r : Runner) :
  outcome (detached callback r) = inr tt.
Proof.
  unfold detached. rewrite try_catch_eq.
  destruct (outcome (callback r)) as [e | []] eqn:H; cbn; reflexivity.
Qed.

Lemma detached_keeps (P : Runner -> Prop) (callback : Task unit) :
  keeps P callback -> keeps P (detached callback).
Proof.
  intros H. unfold detached. apply keeps_try_catch; [exact H |].
  intros e. apply keeps_ret.
Qed.

(** The scope always ends in the completion callback, entered in a runner
    that satisfies whatever the two other callbacks maintain. *)
Lemma scope_completes (P : Runner -> Prop) (env : Collaborators)
  (work : ITransaction -> Task unit) (onFailure : Error -> Task unit)
  (r : Runner) :
  keeps P (work (scope_transaction env)) ->
  (forall e, keeps P (onFailure e)) ->
  P r ->
  exists r',
    P r' /\
    final (withExclusiveTransactionAsync env work onFailure onComplete r) =
      final (onComplete r') /\
    outcome (withExclusiveTransactionAsync env work onFailure onComplete r) =
      inr tt.
Proof.
  intros Hw Hf Hr. unfold withExclusiveTransactionAsync.
  destruct (scope_failure env) as [c |].
  - exists (final (detached (onFailure (Thrown c)) r)). split.
    + apply detached_keeps; [apply Hf | exact Hr].
    + rewrite bind_eq, detached_returns. cbn. split; reflexivity.
  - set (body := try_catch (work (scope_transaction env))
                   (fun err => detached (onFailure err))).
    assert (outcome (body r) = inr tt) as Hbody.
    { unfold body. rewrite try_catch_eq.
      destruct (outcome (work (scope_transaction env) r)) as [e | []] eqn:H;
        cbn.
      - apply detached_returns.
      - reflexivity. }
    exists (final (body r)). split.
    + apply keeps_try_catch; [exact Hw | | exact Hr].
      intros e. apply detached_keeps, Hf.
    + rewrite bind_eq, Hbody. cbn. split; reflexivity.
Qed.

(** A query on a runner that is not released is its two announcements
    followed by the engine scope. *)
Lemma query_running (env : Collaborators) (sql : string)
  (parameters : option (list Value)) (useStructuredResult : bool)
  (r : Runner) :
  isReleased r = false ->
  let scope :=
    withExclusiveTransactionAsync env
      (work env sql parameters useStructuredResult) (onFailure env)
      onComplete r in
  final (query env sql parameters useStructuredResult r) = final scope /\
  trace (query env sql parameters useStructuredResult r) =
    LogQuery sql parameters :: BroadcastBeforeQuery sql parameters ::
    trace scope /\
  outcome (query env sql parameters useStructuredResult r) = outcome scope.
Proof.
  intros Hrel scope. unfold query.
  rewrite bind_eq. cbn [get outcome final trace app]. rewrite Hrel.
  rewrite bind_eq. cbn [emit outcome final trace app].
  rewrite bind_eq. cbn [emit outcome final trace app].
  fold scope. repeat split.
Qed.

Lemma query_completes (P : Runner -> Prop) (env : Collaborators)
  (sql : string) (parameters : option (list Value))
  (useStructuredResult : bool) (r : Runner) :
  keeps P
    (work env sql parameters useStructuredResult (scope_transaction env)) ->
  (forall e, keeps P (onFailure env e)) ->
  isReleased r = false ->
  P r ->
  exists r',
    P r' /\
    final (query env sql parameters useStructuredResult r) =
      final (onComplete r') /\
    outcome (query env sql parameters useStructuredResult r) = inr tt.
Proof.
  intros Hw Hf Hrel Hr.
  destruct (scope_completes P env _ _ r Hw Hf Hr) as (r' & Hr' & Hfin & Hout).
  exists r'. split; [exact Hr' |].
  destruct (query_running env sql parameters useStructuredResult r Hrel)
    as (Hq1 & _ & Hq3).
  rewrite Hq1, Hq3. split; assumption.
Qed.

Lemma query_released (env : Collaborators) (sql : string)
  (parameters : option (list Value)) (useStructuredResult : bool)
  (r : Runner) :
  isReleased r = true ->
  query env sql parameters useStructuredResult r =
    {| final := r; trace := [];
       outcome := inl QueryRunnerAlreadyReleasedError |}.
Proof.
  intros H. unfold query, bind, get, throw. cbn. rewrite H. reflexivity.
Qed.

Lemma perform_settled (env : Collaborators) (c : Call) (r : Runner) :
  settled r -> settled (final (perform env c r)).
Proof.
  intros Hs. pose proof (settled_coherent r Hs) as Hc.
  destruct Hs as (Ht & Ha & Hd).
  assert (forall m : Task unit,
             keeps coherent m -> transaction (final (m r)) = None ->
             settled (final (m r))) as Hmethod.
  { intros m Hm Hnone. destruct (Hm r Hc) as [Hd' Ha'].
    repeat split; [exact Hnone | intros H; apply Ha'; auto | exact Hd']. }
  destruct c; cbn [perform].
  - apply Hmethod; [apply startTransaction_coherent |].
    destruct r as [released active depth t]. cbn in Ht. subst t.
    run_cases; reflexivity.
  - apply Hmethod; [apply commitTransaction_coherent |].
    destruct r as [released active depth t]. cbn in Ht. subst t.
    unfold commitTransaction, bind at 1, get. cbn.
    destruct (notStarted _); run_cases; reflexivity.
  - apply Hmethod; [apply rollbackTransaction_coherent |].
    destruct r as [released active depth t]. cbn in Ht. subst t.
    unfold rollbackTransaction, bind at 1, get. cbn.
    destruct (notStarted _); run_cases; reflexivity.
  - destruct (isReleased r) eqn:Hrel.
    + rewrite query_released by exact Hrel. cbn. repeat split; assumption.
    + destruct (query_completes coherent env sql parameters
                  useStructuredResult r) as (r' & Hr' & Hfin & _).
      * apply work_coherent.
      * intros e. apply onFailure_coherent.
      * exact Hrel.
      * exact Hc.
      * rewrite Hfin. destruct Hr' as [Hd' _].
        repeat split; cbn; [discriminate | exact Hd'].
Qed.

Lemma performAll_settled (calls : list (Collaborators * Call)) (r : Runner) :
  settled r -> settled (performAll calls r).
Proof.
  revert r. induction calls as [| [env c] rest IH]; intros r Hr; cbn.
  - exact Hr.
  - apply IH, perform_settled, Hr.
Qed.

Lemma reachable_settled (r : Runner) : reachable r -> settled r.
Proof.
  intros [calls ->]. apply performAll_settled.
  unfold settled, initialRunner. cbn. repeat split; try lia; discriminate.
Qed.


(** Inside a query too: in the runner the work callback leaves behind,
    before the completion callback, a held engine handle comes with a
    positive depth. *)
Lemma work_handle_has_depth (env : Collaborators) (sql : string)
  (parameters : option (list Value)) (useStructuredResult : bool)
  (txn : ITransaction) (r : Runner) :
  reachable r ->
  let mid := final (work env sql parameters useStructuredResult txn r) in
  transactionDepth mid = 0 -> transaction mid = None.
Proof.
  intros Hr mid Hzero.
  destruct (work_coherent env sql parameters useStructuredResult txn r
              (settled_coherent r (reachable_settled r Hr))) as [_ Hpos].
  fold mid in Hpos. destruct (transaction mid); [| reflexivity].
  assert (0 < transactionDepth mid) by (apply Hpos; right; discriminate).
  lia.
Qed.

(** When rollbackTransaction returns, the failure callback calls [fail]
    once, with the error it was given. *)
Lemma onFailure_settles (env : Collaborators) (err : Error) (r : Runner) :
  outcome (rollbackTransaction env r) = inr tt ->
  settlements (trace (onFailure env err r)) = [PromiseFail err] /\
  outcome (onFailure env err r) = inr tt.
Proof.
  destruct r as [released active depth txn].
  destruct active, txn; run_cases; intros H; try discriminate;
    split; reflexivity.
Qed.

(** When it raises, [fail] is not called. *)
Lemma onFailure_unsettled (env : Collaborators) (err : Error) (r : Runner)
  (e : Error) :
  outcome (rollbackTransaction env r) = inl e ->
  settlements (trace (onFailure env err r)) = [] /\
  outcome (onFailure env err r) = inl e.
Proof.
  destruct r as [released active depth txn].
  destruct active, txn; run_cases; intros H; try discriminate;
    split; try reflexivity; exact H.
Qed.

(** ** Shape of the traces *)

Lemma startTransaction_run (env : Collaborators) (r : Runner) :
  startTransaction env r =
    match subscribers env BeforeTransactionStart with
    | Some c =>
        {| final := set_isTransactionActive false r;
           trace := [Broadcast BeforeTransactionStart];
           outcome := inl (Thrown c) |}
    | None =>
        {| final := set_transactionDepth (transactionDepth r + 1)
                      (set_isTransactionActive true r);
           trace := [Broadcast BeforeTransactionStart;
                     Broadcast AfterTransactionStart];
           outcome := match subscribers env AfterTransactionStart with
                      | Some c => inl (Thrown c)
                      | None => inr tt
                      end |}
    end.
Proof.
  destruct r as [released active depth txn]. run_cases; reflexivity.
Qed.

Lemma implicitStart_held (env : Collaborators) (txn : ITransaction)
  (r : Runner) :
  transaction r <> None ->
  implicitStart env txn r = {| final := r; trace := []; outcome := inr tt |}.
Proof.
  intros H. unfold implicitStart, bind, get. cbn.
  destruct (transaction r); [reflexivity | contradiction].
Qed.

Lemma implicitStart_fresh (env : Collaborators) (txn : ITransaction)
  (r : Runner) :
  transaction r = None ->
  implicitStart env txn r =
    match subscribers env BeforeTransactionStart with
    | Some c =>
        {| final := set_isTransactionActive false r;
           trace := [Broadcast BeforeTransactionStart];
           outcome := inl (Thrown c) |}
    | None =>
        match subscribers env AfterTransactionStart with
        | Some c =>
            {| final := set_transactionDepth (transactionDepth r + 1)
                          (set_isTransactionActive true r);
               trace := [Broadcast BeforeTransactionStart;
                         Broadcast AfterTransactionStart];
               outcome := inl (Thrown c) |}
        | None =>
            {| final := set_transaction (Some txn)
                          (set_transactionDepth (transactionDepth r + 1)
                             (set_isTransactionActive true r));
               trace := [Broadcast BeforeTransactionStart;
                         Broadcast AfterTransactionStart];
               outcome := inr tt |}
        end
    end.
Proof.
  intros H. unfold implicitStart. rewrite bind_eq.
  cbn [get outcome final trace app]. rewrite H.
  rewrite bind_eq, startTransaction_run.
  destruct (subscribers env BeforeTransactionStart); [reflexivity |].
  destruct (subscribers env AfterTransactionStart); reflexivity.
Qed.

Lemma implicitStart_events (env : Collaborators) (txn : ITransaction)
  (r : Runner) :
  Forall (fun e => isStartEvent e = true) (trace (implicitStart env txn r)).
Proof.
  destruct (transaction r) eqn:Ht.
  - rewrite implicitStart_held by congruence. constructor.
  - rewrite implicitStart_fresh by exact Ht.
    destruct (subscribers env BeforeTransactionStart);
      [| destruct (subscribers env AfterTransactionStart)];
      repeat constructor.
Qed.

Lemma onFailure_events (env : Collaborators) (err : Error) (r : Runner) :
  Forall (fun e => isFailureEvent e = true)
    (trace (detached (onFailure env err) r)).
Proof.
  destruct r as [released active depth txn].
  destruct active, txn; run_cases; repeat constructor.
Qed.

Lemma runThenFetch_run (env : Collaborators) (sql : string)
  (parameters : option (list Value)) (r : Runner) :
  runThenFetch sql parameters (scope_transaction env) r =
    {| final := r;
       trace := fetchTrace env sql parameters;
       outcome := fetchOutcome env sql parameters |}.
Proof.
  unfold fetchTrace, fetchOutcome. run_cases; reflexivity.
Qed.

(** The engine sees [runAsync] first; [getAllAsync] of the transaction
    object is called exactly when the primary path raised, and then last. *)
Lemma fetchTrace_shape (env : Collaborators) (sql : string)
  (parameters : option (list Value)) :
  fetchTrace env sql parameters =
    RunAsync sql (params_or_empty parameters) ::
    match statementOf env sql parameters with
    | Some _ => [HandleGetAll sql (params_or_empty parameters)]
    | None => []
    end ++
    (if primaryRaised env sql parameters
     then [TransactionGetAll sql (params_or_empty parameters)]
     else []).
Proof.
  unfold fetchTrace, statementOf, primaryRaised. run_cases; reflexivity.
Qed.

Lemma fetchOutcome_fallback (env : Collaborators) (sql : string)
  (parameters : option (list Value)) :
  primaryRaised env sql parameters = true ->
  fetchOutcome env sql parameters =
    match getAllAsync (scope_transaction env) sql
            (params_or_empty parameters) with
    | Fulfilled rows => inr (statementOf env sql parameters, rows)
    | Rejected c => inl (Thrown c)
    end.
Proof.
  unfold fetchOutcome, statementOf, primaryRaised.
  run_cases; intros; try discriminate; reflexivity.
Qed.

Lemma fetchOutcome_statement (env : Collaborators) (sql : string)
  (parameters : option (list Value)) (t : option StatementHandle)
  (rows : Rows) :
  fetchOutcome env sql parameters = inr (t, rows) ->
  t = statementOf env sql parameters.
Proof.
  unfold fetchOutcome, statementOf.
  run_cases; intros H; try discriminate; congruence.
Qed.

(** The outer [try] statement when the fetch and the await of the
    after-query broadcast both go through. *)
Lemma guarded_resolved (env : Collaborators) (sql : string)
  (parameters : option (list Value)) (useStructuredResult : bool)
  (r : Runner) (t : option StatementHandle) (rows : Rows) :
  fetchOutcome env sql parameters = inr (t, rows) ->
  wait_after_query env = None ->
  guarded env sql parameters useStructuredResult (scope_transaction env) r =
    {| final := r;
       trace :=
         fetchTrace env sql parameters ++
         [BroadcastAfterQuery sql parameters true
            (Some (queryExecutionTime env)) rows None; Wait] ++
         (if isSlow (maxQueryExecutionTime env) (queryExecutionTime env)
          then [LogQuerySlow (queryExecutionTime env) sql parameters]
          else []) ++
         [PromiseOk (resolution useStructuredResult
                       (shapeResult t rows sql))];
       outcome := inr tt |}.
Proof.
  intros Hfetch Hwait.
  unfold guarded, tryBlock. rewrite try_catch_eq, bind_eq.
  rewrite runThenFetch_run. cbn [outcome final trace]. rewrite Hfetch.
  run_cases; try discriminate; reflexivity.
Qed.

(** Otherwise the [catch] block runs: no slow-query log, no [ok]. *)
Lemma guarded_rejected (env : Collaborators) (sql : string)
  (parameters : option (list Value)) (useStructuredResult : bool)
  (r : Runner) :
  (exists e, fetchOutcome env sql parameters = inl e) \/
  (exists c, wait_after_query env = Some c) ->
  let g := guarded env sql parameters useStructuredResult
             (scope_transaction env) r in
  (forall v, ~ In (PromiseOk v) (trace g)) /\
  filter isSlowLog (trace g) = [] /\
  (outcome g = inr tt ->
   exists e, settlements (trace g) =
               [PromiseFail (QueryFailedError sql parameters e)]) /\
  (outcome g <> inr tt -> settlements (trace g) = []).
Proof.
  intros H g. subst g.
  unfold guarded, tryBlock. rewrite try_catch_eq, bind_eq.
  rewrite runThenFetch_run. cbn [outcome final trace].
  rewrite fetchTrace_shape.
  destruct (fetchOutcome env sql parameters) as [e | [t rows]] eqn:Hfetch.
  - destruct (statementOf env sql parameters),
      (primaryRaised env sql parameters);
      run_cases; cbn; (split; [intros v Hin; intuition discriminate |]);
      (split; [reflexivity |]); split; intros Ho;
      try discriminate; try contradiction; eauto.
  - destruct H as [[e He] | [c Hc]]; [discriminate |].
    destruct (statementOf env sql parameters),
      (primaryRaised env sql parameters);
      run_cases; try discriminate; cbn;
      (split; [intros v Hin; intuition discriminate |]);
      (split; [reflexivity |]); split; intros Ho;
      try discriminate; try contradiction; eauto.
Qed.

Lemma guarded_events (env : Collaborators) (sql : string)
  (parameters : option (list Value)) (useStructuredResult : bool)
  (txn : ITransaction) (r : Runner) :
  Forall (fun e => isStatementEvent e = true)
    (trace (guarded env sql parameters useStructuredResult txn r)) /\
  exists rest,
    trace (guarded env sql parameters useStructuredResult txn r) =
      RunAsync sql (params_or_empty parameters) :: rest.
Proof.
  run_cases; (split; [repeat constructor | eexists; reflexivity]).
Qed.

Lemma class_excludes (P : Event -> bool) (l : list Event) (e : Event) :
  Forall (fun x => P x = true) l -> P e = false -> ~ In e l.
Proof.
  intros Hall He Hin. rewrite Forall_forall in Hall.
  specialize (Hall e Hin). congruence.
Qed.

Lemma class_filter_nil (P Q : Event -> bool) (l : list Event) :
  Forall (fun x => P x = true) l ->
  (forall x, P x = true -> Q x = false) ->
  filter Q l = [].
Proof.
  intros Hall Hdisj. induction Hall as [| x l Hx _ IH]; cbn.
  - reflexivity.
  - rewrite (Hdisj x Hx). exact IH.
Qed.

Lemma class_filter_all (P : Event -> bool) (l : list Event) :
  Forall (fun x => P x = true) l -> filter P l = l.
Proof.
  intros Hall. induction Hall as [| x l Hx _ IH]; cbn.
  - reflexivity.
  - rewrite Hx, IH. reflexivity.
Qed.

(** The trace of the engine scope when it opens: the implicit start, then
    the outer [try] statement if the start returned, then the failure
    callback if the work callback raised. *)
Lemma scope_trace (env : Collaborators) (sql : string)
  (parameters : option (list Value)) (useStructuredResult : bool)
  (r : Runner) :
  scope_failure env = None ->
  let i := implicitStart env (scope_transaction env) r in
  let g := guarded env sql parameters useStructuredResult
             (scope_transaction env) (final i) in
  trace (withExclusiveTransactionAsync env
           (work env sql parameters useStructuredResult) (onFailure env)
           onComplete r) =
    trace i ++
    match outcome i with
    | inl e => trace (detached (onFailure env e) (final i))
    | inr _ =>
        trace g ++
        match outcome g with
        | inl e => trace (detached (onFailure env e) (final g))
        | inr _ => []
        end
    end.
Proof.
  intros Hopen i g. unfold withExclusiveTransactionAsync. rewrite Hopen.
  rewrite bind_eq, try_catch_eq. unfold work. rewrite bind_eq.
  fold i. destruct (outcome i) as [e | []] eqn:Hi; cbn [outcome final trace].
  - rewrite detached_returns. cbn. rewrite app_nil_r. reflexivity.
  - fold g. destruct (outcome g) as [e | []] eqn:Hg; cbn [outcome final trace].
    + rewrite detached_returns. cbn. rewrite !app_nil_r, app_assoc.
      reflexivity.
    + cbn. rewrite !app_nil_r. reflexivity.
Qed.

Lemma scope_refused_trace (env : Collaborators) (sql : string)
  (parameters : option (list Value)) (useStructuredResult : bool)
  (r : Runner) (c : Cause) :
  scope_failure env = Some c ->
  trace (withExclusiveTransactionAsync env
           (work env sql parameters useStructuredResult) (onFailure env)
           onComplete r) =
    trace (detached (onFailure env (Thrown c)) r).
Proof.
  intros Hclosed. unfold withExclusiveTransactionAsync. rewrite Hclosed.
  rewrite bind_eq, detached_returns. cbn. apply app_nil_r.
Qed.

Lemma implicitStart_returns (env : Collaborators) (txn : ITransaction)
  (r : Runner) :
  startGoesThrough env r ->
  outcome (implicitStart env txn r) = inr tt /\
  trace (implicitStart env txn r) = startTrace r.
Proof.
  unfold startGoesThrough, startTrace. intros H.
  destruct (transaction r) eqn:Ht.
  - rewrite implicitStart_held by congruence. split; reflexivity.
  - rewrite implicitStart_fresh by exact Ht.
    destruct (H eq_refl) as [-> ->]. split; reflexivity.
Qed.

Lemma implicitStart_returned (env : Collaborators) (txn : ITransaction)
  (r : Runner) :
  outcome (implicitStart env txn r) = inr tt -> startGoesThrough env r.
Proof.
  unfold startGoesThrough. intros H Ht. revert H.
  rewrite implicitStart_fresh by exact Ht.
  destruct (subscribers env BeforeTransactionStart);
    [discriminate |].
  destruct (subscribers env AfterTransactionStart); [discriminate |].
  split; reflexivity.
Qed.

(** A query that goes through, event by event. *)
Lemma query_resolved (env : Collaborators) (sql : string)
  (parameters : option (list Value)) (useStructuredResult : bool)
  (r : Runner) (t : option StatementHandle) (rows : Rows) :
  isReleased r = false ->
  scope_failure env = None ->
  startGoesThrough env r ->
  fetchOutcome env sql parameters = inr (t, rows) ->
  wait_after_query env = None ->
  trace (query env sql parameters useStructuredResult r) =
    LogQuery sql parameters :: BroadcastBeforeQuery sql parameters ::
    startTrace r ++
    fetchTrace env sql parameters ++
    [BroadcastAfterQuery sql parameters true
       (Some (queryExecutionTime env)) rows None; Wait] ++
    (if isSlow (maxQueryExecutionTime env) (queryExecutionTime env)
     then [LogQuerySlow (queryExecutionTime env) sql parameters]
     else []) ++
    [PromiseOk (resolution useStructuredResult (shapeResult t rows sql))].
Proof.
  intros Hrel Hopen Hstart Hfetch Hwait.
  destruct (query_running env sql parameters useStructuredResult r Hrel)
    as (_ & -> & _).
  rewrite scope_trace by exact Hopen.
  destruct (implicitStart_returns env (scope_transaction env) r Hstart)
    as [-> ->].
  rewrite (guarded_resolved env sql parameters useStructuredResult _ t rows
             Hfetch Hwait).
  cbn [outcome final trace]. rewrite app_nil_r. reflexivity.
Qed.

(** Conversely a query that calls [ok] went that way. *)
Lemma query_resolved_inv (env : Collaborators) (sql : string)
  (parameters : option (list Value)) (useStructuredResult : bool)
  (r : Runner) (v : Resolution) :
  In (PromiseOk v) (trace (query env sql parameters useStructuredResult r)) ->
  isReleased r = false /\
  scope_failure env = None /\
  startGoesThrough env r /\
  wait_after_query env = None /\
  exists t rows,
    fetchOutcome env sql parameters = inr (t, rows) /\
    v = resolution useStructuredResult (shapeResult t rows sql).
Proof.
  intros Hin.
  destruct (isReleased r) eqn:Hrel.
  { rewrite query_released in Hin by exact Hrel. destruct Hin. }
  destruct (query_running env sql parameters useStructuredResult r Hrel)
    as (_ & Htr & _).
  rewrite Htr in Hin. clear Htr.
  destruct Hin as [Hin | [Hin | Hin]]; try discriminate.
  destruct (scope_failure env) as [c |] eqn:Hopen.
  { rewrite (scope_refused_trace _ _ _ _ _ c Hopen) in Hin.
    elim (class_excludes isFailureEvent _ (PromiseOk v) (onFailure_events _ _ _)
            eq_refl Hin). }
  rewrite scope_trace in Hin by exact Hopen.
  apply in_app_or in Hin. destruct Hin as [Hin | Hin].
  { elim (class_excludes isStartEvent _ (PromiseOk v)
            (implicitStart_events _ _ _)
            eq_refl Hin). }
  destruct (outcome (implicitStart env (scope_transaction env) r))
    as [e | []] eqn:Hi.
  { elim (class_excludes isFailureEvent _ (PromiseOk v) (onFailure_events _ _ _)
            eq_refl Hin). }
  apply implicitStart_returned in Hi.
  apply in_app_or in Hin.
  set (r1 := final (implicitStart env (scope_transaction env) r)) in *.
  assert (In (PromiseOk v)
            (trace (guarded env sql parameters useStructuredResult
                      (scope_transaction env) r1))) as Hg.
  { destruct Hin as [Hin | Hin]; [exact Hin |].
    destruct (outcome (guarded env sql parameters useStructuredResult
                         (scope_transaction env) r1)); [| destruct Hin].
    elim (class_excludes isFailureEvent _ (PromiseOk v) (onFailure_events _ _ _)
            eq_refl Hin). }
  clear Hin.
  destruct (fetchOutcome env sql parameters) as [e | [t rows]] eqn:Hfetch.
  { destruct (guarded_rejected env sql parameters useStructuredResult r1)
      as (Hno & _); [left; eauto |]. elim (Hno v Hg). }
  destruct (wait_after_query env) as [c |] eqn:Hwait.
  { destruct (guarded_rejected env sql parameters useStructuredResult r1)
      as (Hno & _); [right; eauto |]. elim (Hno v Hg). }
  split; [reflexivity |]. split; [reflexivity |]. split; [exact Hi |].
  split; [reflexivity |].
  exists t, rows. split; [reflexivity |].
  rewrite (guarded_resolved env sql parameters useStructuredResult r1 t rows
             Hfetch Hwait) in Hg.
  cbn [trace] in Hg. rewrite fetchTrace_shape in Hg.
  destruct (statementOf env sql parameters),
    (primaryRaised env sql parameters),
    (isSlow (maxQueryExecutionTime env) (queryExecutionTime env));
    cbn in Hg; intuition congruence.
Qed.

(** ** The shaped result *)

Lemma skipn_nth_error (rows : list Row) (i : nat) (row : Row) :
  nth_error rows i = Some row -> skipn i rows = row :: skipn (S i) rows.
Proof.
  revert i. induction rows as [| x rows IH]; intros [| i] H; cbn in *;
    try discriminate.
  - congruence.
  - apply IH, H.
Qed.

Lemma pushRows_spec (rows : list Row) (fuel i : nat) (resultSet : list Row) :
  pushRows rows i fuel resultSet = resultSet ++ firstn fuel (skipn i rows).
Proof.
  revert i resultSet. induction fuel as [| fuel IH]; intros i resultSet; cbn.
  - symmetry. apply app_nil_r.
  - destruct (nth_error rows i) as [row |] eqn:Hrow.
    + rewrite IH, (skipn_nth_error rows i row Hrow), <- app_assoc.
      reflexivity.
    + apply nth_error_None in Hrow. rewrite skipn_all2 by exact Hrow.
      symmetry. apply app_nil_r.
Qed.

(** The copying loop keeps the rows and their order. *)
Lemma copyRows_same (rows : list Row) : copyRows rows = rows.
Proof.
  unfold copyRows. rewrite pushRows_spec. cbn. apply firstn_all.
Qed.

Lemma shapeResult_insert (t : option StatementHandle) (rows : Rows)
  (sql : string) :
  isInsert sql = true ->
  raw (shapeResult t rows sql) = option_map RawId (insertedId t).
Proof.
  intros H. unfold shapeResult. rewrite H. reflexivity.
Qed.

Lemma shapeResult_affected (t : option StatementHandle) (rows : Rows)
  (sql : string) :
  affected (shapeResult t rows sql) =
    match t with
    | Some h => changes h
    | None => None
    end.
Proof.
  unfold shapeResult.
  destruct t as [h |]; [destruct (changes h) |];
    destruct rows as [[| row more] |]; destruct (isInsert sql); reflexivity.
Qed.

Lemma shapeResult_records (t : option StatementHandle) (rows : Rows)
  (sql : string) :
  records (shapeResult t rows sql) =
    match rows with
    | Some (row :: more) => Some (row :: more)
    | _ => None
    end.
Proof.
  unfold shapeResult.
  destruct rows as [[| row more] |]; try rewrite copyRows_same;
    destruct t as [h |]; try destruct (changes h);
    destruct (isInsert sql); reflexivity.
Qed.

Lemma shapeResult_select (t : option StatementHandle) (rows : Rows)
  (sql : string) :
  isInsert sql = false ->
  raw (shapeResult t rows sql) =
    match rows with
    | Some (row :: more) => Some (RawRows (row :: more))
    | _ => None
    end.
Proof.
  intros H. unfold shapeResult. rewrite H.
  destruct rows as [[| row more] |]; try rewrite copyRows_same;
    destruct t as [h |]; try destruct (changes h); reflexivity.
Qed.

(** ** Reading the trace of a query that goes through *)

Section Resolved.

Variable env : Collaborators.
Variable sql : string.
Variable parameters : option (list Value).
Variable useStructuredResult : bool.
Variable r : Runner.
Variable t : option StatementHandle.
Variable rows : Rows.

Hypothesis Hrel : isReleased r = false.
Hypothesis Hopen : scope_failure env = None.
Hypothesis Hstart : startGoesThrough env r.
Hypothesis Hfetch : fetchOutcome env sql parameters = inr (t, rows).
Hypothesis Hwait : wait_after_query env = None.

Ltac read_resolved :=
  rewrite (query_resolved env sql parameters useStructuredResult r t rows
             Hrel Hopen Hstart Hfetch Hwait);
  rewrite fetchTrace_shape; unfold startTrace;
  destruct (transaction r), (statementOf env sql parameters),
    (primaryRaised env sql parameters),
    (isSlow (maxQueryExecutionTime env) (queryExecutionTime env));
  reflexivity.

Lemma query_resolved_settlements :
  settlements (trace (query env sql parameters useStructuredResult r)) =
    [PromiseOk (resolution useStructuredResult (shapeResult t rows sql))].
Proof. read_resolved. Qed.

Lemma query_resolved_slow_log :
  filter isSlowLog (trace (query env sql parameters useStructuredResult r)) =
    if isSlow (maxQueryExecutionTime env) (queryExecutionTime env)
    then [LogQuerySlow (queryExecutionTime env) sql parameters]
    else [].
Proof. read_resolved. Qed.

Lemma query_resolved_engine_calls :
  filter isEngineCall (trace (query env sql parameters useStructuredResult r)) =
    fetchTrace env sql parameters.
Proof. read_resolved. Qed.

Lemma query_resolved_rows :
  In (BroadcastAfterQuery sql parameters true (Some (queryExecutionTime env))
        rows None)
     (trace (query env sql parameters useStructuredResult r)).
Proof.
  rewrite (query_resolved env sql parameters useStructuredResult r t rows
             Hrel Hopen Hstart Hfetch Hwait).
  right. right. apply in_or_app. right. apply in_or_app. right.
  left. reflexivity.
Qed.

End Resolved.

(** ** Engine calls and start events of any query *)

Lemma class_existsb_false (P Q : Event -> bool) (l : list Event) :
  Forall (fun x => P x = true) l ->
  (forall x, P x = true -> Q x = false) ->
  existsb Q l = false.
Proof.
  intros Hall Hdisj. induction Hall as [| x l Hx _ IH]; cbn.
  - reflexivity.
  - rewrite (Hdisj x Hx). exact IH.
Qed.

Lemma start_not_submission (x : Event) :
  isStartEvent x = true -> isSubmission x = false.
Proof. destruct x as [[] | | | | | | | | | | |]; cbn; congruence. Qed.

Lemma failure_not_submission (x : Event) :
  isFailureEvent x = true -> isSubmission x = false.
Proof. destruct x as [[] | | | | | | | | | | |]; cbn; congruence. Qed.

Lemma start_not_engine (x : Event) :
  isStartEvent x = true -> isEngineCall x = false.
Proof. destruct x as [[] | | | | | | | | | | |]; cbn; congruence. Qed.

Lemma failure_not_engine (x : Event) :
  isFailureEvent x = true -> isEngineCall x = false.
Proof. destruct x as [[] | | | | | | | | | | |]; cbn; congruence. Qed.

Lemma beforeSubmission_app (l rest : list Event) (source : string)
  (params : list Value) :
  Forall (fun e => isSubmission e = false) l ->
  beforeSubmission (l ++ RunAsync source params :: rest) = l.
Proof.
  intros Hall. induction Hall as [| x l Hx _ IH]; cbn.
  - reflexivity.
  - destruct x; try discriminate; rewrite IH; reflexivity.
Qed.

Lemma guarded_engine_calls (env : Collaborators) (sql : string)
  (parameters : option (list Value)) (useStructuredResult : bool)
  (r : Runner) :
  filter isEngineCall
    (trace (guarded env sql parameters useStructuredResult
              (scope_transaction env) r)) =
    fetchTrace env sql parameters.
Proof.
  unfold guarded, tryBlock. rewrite try_catch_eq, bind_eq.
  rewrite runThenFetch_run. cbn [outcome final trace].
  rewrite fetchTrace_shape.
  destruct (fetchOutcome env sql parameters) as [e | [t rows]];
    destruct (statementOf env sql parameters),
      (primaryRaised env sql parameters);
    run_cases; reflexivity.
Qed.

(** Whatever happens, the engine is either not called at all or called the
    way the two-path fetch calls it. *)
Lemma query_engine_calls (env : Collaborators) (sql : string)
  (parameters : option (list Value)) (useStructuredResult : bool)
  (r : Runner) :
  filter isEngineCall
    (trace (query env sql parameters useStructuredResult r)) = [] \/
  filter isEngineCall
    (trace (query env sql parameters useStructuredResult r)) =
    fetchTrace env sql parameters.
Proof.
  destruct (isReleased r) eqn:Hrel.
  { left. rewrite query_released by exact Hrel. reflexivity. }
  destruct (query_running env sql parameters useStructuredResult r Hrel)
    as (_ & -> & _).
  cbn [filter isEngineCall].
  destruct (scope_failure env) as [c |] eqn:Hopen.
  { left. rewrite (scope_refused_trace _ _ _ _ _ c Hopen).
    apply (class_filter_nil isFailureEvent); [apply onFailure_events |].
    exact failure_not_engine. }
  rewrite scope_trace by exact Hopen. rewrite filter_app.
  rewrite (class_filter_nil isStartEvent isEngineCall _
             (implicitStart_events _ _ _) start_not_engine).
  cbn [app].
  destruct (outcome (implicitStart env (scope_transaction env) r)).
  { left. apply (class_filter_nil isFailureEvent);
      [apply onFailure_events | exact failure_not_engine]. }
  right. rewrite filter_app, guarded_engine_calls.
  destruct (outcome (guarded _ _ _ _ _ _)).
  - rewrite (class_filter_nil isFailureEvent isEngineCall _
               (onFailure_events _ _ _) failure_not_engine).
    apply app_nil_r.
  - apply app_nil_r.
Qed.

Lemma work_trace (env : Collaborators) (sql : string)
  (parameters : option (list Value)) (useStructuredResult : bool)
  (txn : ITransaction) (r : Runner) :
  trace (work env sql parameters useStructuredResult txn r) =
    trace (implicitStart env txn r) ++
    match outcome (implicitStart env txn r) with
    | inl _ => []
    | inr _ =>
        trace (guarded env sql parameters useStructuredResult txn
                 (final (implicitStart env txn r)))
    end.
Proof.
  unfold work. rewrite bind_eq.
  destruct (outcome (implicitStart env txn r)); cbn [trace].
  - symmetry. apply app_nil_r.
  - reflexivity.
Qed.

(** The start events before the statement reaches the engine. *)
Lemma query_start_events (env : Collaborators) (sql : string)
  (parameters : option (list Value)) (useStructuredResult : bool)
  (r : Runner) :
  existsb isSubmission
    (trace (query env sql parameters useStructuredResult r)) = true ->
  filter isStartEvent
    (beforeSubmission
       (trace (query env sql parameters useStructuredResult r))) =
    startTrace r.
Proof.
  destruct (isReleased r) eqn:Hrel.
  { rewrite query_released by exact Hrel. discriminate. }
  destruct (query_running env sql parameters useStructuredResult r Hrel)
    as (_ & -> & _).
  cbn [existsb isSubmission orb beforeSubmission filter isStartEvent].
  destruct (scope_failure env) as [c |] eqn:Hopen.
  { rewrite (scope_refused_trace _ _ _ _ _ c Hopen).
    rewrite (class_existsb_false isFailureEvent isSubmission _
               (onFailure_events _ _ _) failure_not_submission).
    discriminate. }
  rewrite scope_trace by exact Hopen.
  pose proof (implicitStart_events env (scope_transaction env) r) as Hevents.
  destruct (outcome (implicitStart env (scope_transaction env) r))
    as [e | []] eqn:Hi.
  { rewrite existsb_app.
    rewrite (class_existsb_false isStartEvent isSubmission _ Hevents
               start_not_submission).
    rewrite (class_existsb_false isFailureEvent isSubmission _
               (onFailure_events _ _ _) failure_not_submission).
    discriminate. }
  intros _.
  destruct (guarded_events env sql parameters useStructuredResult
              (scope_transaction env)
              (final (implicitStart env (scope_transaction env) r)))
    as (_ & rest & ->).
  cbn [app]. rewrite beforeSubmission_app.
  - rewrite (class_filter_all isStartEvent _ Hevents).
    apply (implicitStart_returns env (scope_transaction env) r).
    apply (implicitStart_returned env (scope_transaction env) r Hi).
  - eapply Forall_impl; [| exact Hevents].
    exact start_not_submission.
Qed.

(** ** The readings in terms of the collaborators' answers *)

Lemma prefix_append (p s : string) :
  String.prefix p s = true <-> exists rest, s = (p ++ rest)%string.
Proof.
  revert s. induction p as [| a p IH]; intros [| b s]; cbn.
  - split; [intros _; exists EmptyString; reflexivity | reflexivity].
  - split; [intros _; exists (String b s); reflexivity | reflexivity].
  - split; [discriminate | intros [rest H]; discriminate H].
  - destruct (Ascii.ascii_dec a b) as [-> | Hne].
    + rewrite IH. split; intros [rest H]; exists rest.
      * rewrite H. reflexivity.
      * injection H as H. exact H.
    + split; [discriminate |].
      intros [rest H]. injection H as Hab _. congruence.
Qed.

Lemma isInsert_literal (sql rest : string) :
  sql = ("INSERT INTO" ++ rest)%string -> isInsert sql = true.
Proof.
  intros H. unfold isInsert. apply prefix_append. exists rest. exact H.
Qed.

Lemma statementOf_fulfilled (env : Collaborators) (sql : string)
  (parameters : option (list Value)) (h : StatementHandle) :
  runAsync (scope_transaction env) sql
    match parameters with
    | Some ps => ps
    | None => []
    end = Fulfilled h ->
  statementOf env sql parameters = Some h.
Proof.
  intros H. unfold statementOf, params_or_empty. rewrite H. reflexivity.
Qed.

Lemma statementOf_rejected (env : Collaborators) (sql : string)
  (parameters : option (list Value)) (c : Cause) :
  runAsync (scope_transaction env) sql
    match parameters with
    | Some ps => ps
    | None => []
    end = Rejected c ->
  statementOf env sql parameters = None /\
  primaryRaised env sql parameters = true.
Proof.
  intros H. unfold statementOf, primaryRaised, params_or_empty. rewrite H.
  split; reflexivity.
Qed.

Lemma primaryRaised_handle (env : Collaborators) (sql : string)
  (parameters : option (list Value)) (h : StatementHandle) (c : Cause) :
  runAsync (scope_transaction env) sql
    match parameters with
    | Some ps => ps
    | None => []
    end = Fulfilled h ->
  handle_getAllAsync h sql
    match parameters with
    | Some ps => ps
    | None => []
    end = Rejected c ->
  primaryRaised env sql parameters = true.
Proof.
  intros Hrun Hfetch. unfold primaryRaised, params_or_empty.
  rewrite Hrun, Hfetch. reflexivity.
Qed.

(** The one success announcement of a query that goes through carries the
    rows of the fetch. *)
Lemma query_resolved_rows_only (env : Collaborators) (sql : string)
  (parameters : option (list Value)) (useStructuredResult : bool)
  (r : Runner) (t : option StatementHandle) (rows rows' : Rows)
  (elapsed : option Z) (err : option Error) :
  isReleased r = false ->
  scope_failure env = None ->
  startGoesThrough env r ->
  fetchOutcome env sql parameters = inr (t, rows) ->
  wait_after_query env = None ->
  In (BroadcastAfterQuery sql parameters true elapsed rows' err)
     (trace (query env sql parameters useStructuredResult r)) ->
  rows' = rows.
Proof.
  intros Hrel Hopen Hstart Hfetch Hwait.
  rewrite (query_resolved env sql parameters useStructuredResult r t rows
             Hrel Hopen Hstart Hfetch Hwait).
  rewrite fetchTrace_shape. unfold startTrace.
  destruct (transaction r), (statementOf env sql parameters),
    (primaryRaised env sql parameters),
    (isSlow (maxQueryExecutionTime env) (queryExecutionTime env));
    cbn; intuition congruence.
Qed.

(** A query that calls [ok], with the handle and the rows it used. *)
Lemma query_resolved_with (env : Collaborators) (sql : string)
  (parameters : option (list Value)) (useStructuredResult : bool)
  (r : Runner) (v : Resolution) :
  In (PromiseOk v) (trace (query env sql parameters useStructuredResult r)) ->
  exists rows,
    v = resolution useStructuredResult
          (shapeResult (statementOf env sql parameters) rows sql) /\
    filter isEngineCall
      (trace (query env sql parameters useStructuredResult r)) =
      fetchTrace env sql parameters /\
    In (BroadcastAfterQuery sql parameters true
          (Some (queryEndTime env - queryStartTime env)) rows None)
       (trace (query env sql parameters useStructuredResult r)) /\
    (forall rows' elapsed err,
       In (BroadcastAfterQuery sql parameters true elapsed rows' err)
          (trace (query env sql parameters useStructuredResult r)) ->
       rows' = rows).
Proof.
  intros Hin.
  destruct (query_resolved_inv env sql parameters useStructuredResult r v Hin)
    as (Hrel & Hopen & Hstart & Hwait & t & rows & Hfetch & Hv).
  pose proof (fetchOutcome_statement env sql parameters t rows Hfetch) as Ht.
  exists rows. split; [congruence |]. split; [| split].
  - apply (query_resolved_engine_calls env sql parameters
             useStructuredResult r t rows); assumption.
  - apply (query_resolved_rows env sql parameters useStructuredResult r t
             rows); assumption.
  - intros rows' elapsed err.
    apply (query_resolved_rows_only env sql parameters useStructuredResult r
             t rows rows' elapsed err); assumption.
Qed.

Lemma fallback_called (env : Collaborators) (sql : string)
  (parameters : option (list Value)) :
  primaryRaised env sql parameters = true ->
  In (TransactionGetAll sql
        match parameters with
        | Some ps => ps
        | None => []
        end)
     (fetchTrace env sql parameters).
Proof.
  intros H. rewrite fetchTrace_shape, H.
  right. apply in_or_app. right. left. reflexivity.
Qed.

Lemma fetchTrace_calls (env : Collaborators) (sql : string)
  (parameters : option (list Value)) :
  let params := match parameters with
                | Some ps => ps
                | None => []
                end in
  fetchTrace env sql parameters =
    RunAsync sql params ::
    match runAsync (scope_transaction env) sql params with
    | Rejected _ => [TransactionGetAll sql params]
    | Fulfilled h =>
        HandleGetAll sql params ::
        match handle_getAllAsync h sql params with
        | Rejected _ => [TransactionGetAll sql params]
        | Fulfilled _ => []
        end
    end.
Proof.
  intros params. rewrite fetchTrace_shape.
  unfold statementOf, primaryRaised, params_or_empty. fold params.
  destruct (runAsync (scope_transaction env) sql params) as [h | c];
    [destruct (handle_getAllAsync h sql params) |]; reflexivity.
Qed.
(** ** Scope completion *)

(** C1, as stated, fails: a query that succeeds on a fresh runner leaves the
    scope with depth 1, since the completion callback writes
    [isTransactionActive] and [transaction] only. *)
Lemma C1_depth_survives_completion :
  let r' := final (query (calm selectTransaction 0 None)
                     selectSql None false initialRunner) in
  ~ (isTransactionActive r' = false /\
     transactionDepth r' = 0 /\
     transaction r' = None).
Proof.
  cbv. intros (_ & H & _). discriminate H.
Qed.

(** C1, amended: whenever the engine's exclusive scope completes, the
    completion callback leaves the runner inactive and without an engine
    handle, whatever the runner was before, hence whether or not
    commitTransaction or rollbackTransaction was called; this holds of the
    callback in any runner and of the runner after any query that reached
    the engine. *)
Theorem C1_completion_resets_activity_and_handle
  (env : Collaborators) (sql : string) (parameters : option (list Value))
  (useStructuredResult : bool) (r : Runner) :
  (isTransactionActive (final (onComplete r)) = false /\
   transaction (final (onComplete r)) = None) /\
  (isReleased r = false ->
   isTransactionActive
     (final (query env sql parameters useStructuredResult r)) = false /\
   transaction
     (final (query env sql parameters useStructuredResult r)) = None).
Proof.
  split; [split; reflexivity |].
  intros Hrel.
  destruct (query_completes (fun _ => True) env sql parameters
              useStructuredResult r) as (r' & _ & Hfin & _).
  - intros r0 _. exact I.
  - intros e r0 _. exact I.
  - exact Hrel.
  - exact I.
  - rewrite Hfin. split; reflexivity.
Qed.

(** The amended C1 on a runner on which startTransaction was called. *)
Lemma C1_completion_resets_witness :
  isTransactionActive
    (final (query (calm selectTransaction 0 None) selectSql
              None false startedRunner)) = false /\
  transaction
    (final (query (calm selectTransaction 0 None) selectSql
              None false startedRunner)) = None.
Proof.
  apply (C1_completion_resets_activity_and_handle
           (calm selectTransaction 0 None) selectSql None false
           startedRunner).
  reflexivity.
Defined.

(** ** The invariant between calls *)

(** C3, as stated, fails: after start, start, commit the runner has depth 1
    and is inactive; so it is after one query that succeeded. *)
Lemma C3_depth_without_activity :
  let env := calm selectTransaction 0 None in
  let r1 := performAll [(env, CallStart); (env, CallStart); (env, CallCommit)]
              initialRunner in
  let r2 := performAll [(env, CallQuery selectSql None false)]
              initialRunner in
  (reachable r1 /\
   ~ (0 < transactionDepth r1 -> isTransactionActive r1 = true)) /\
  (reachable r2 /\
   ~ (0 < transactionDepth r2 -> isTransactionActive r2 = true)).
Proof.
  intros env r1 r2. split; split.
  - exists [(env, CallStart); (env, CallStart); (env, CallCommit)].
    reflexivity.
  - intros H.
    assert (0 < transactionDepth r1) as Hpos by (vm_compute; reflexivity).
    specialize (H Hpos). vm_compute in H. discriminate H.
  - exists [(env, CallQuery selectSql None false)]. reflexivity.
  - intros H.
    assert (0 < transactionDepth r2) as Hpos by (vm_compute; reflexivity).
    specialize (H Hpos). vm_compute in H. discriminate H.
Qed.

(** C3, amended: in every state reachable by any sequence of
    startTransaction, commitTransaction, rollbackTransaction and query
    (including its completion callback), depth = 0 implies that no engine
    handle is held, an active runner has depth > 0, and depth is never
    negative. *)
Theorem C3_reachable_bookkeeping (r : Runner) :
  reachable r ->
  (transactionDepth r = 0 -> transaction r = None) /\
  (isTransactionActive r = true -> 0 < transactionDepth r) /\
  0 <= transactionDepth r.
Proof.
  intros H. destruct (reachable_settled r H) as (Ht & Ha & Hd).
  repeat split; [intros _; exact Ht | exact Ha | exact Hd].
Qed.

(** The amended C3 on the runner reached by one startTransaction. *)
Lemma C3_reachable_bookkeeping_witness :
  (transactionDepth startedRunner = 0 -> transaction startedRunner = None) /\
  (isTransactionActive startedRunner = true ->
   0 < transactionDepth startedRunner) /\
  0 <= transactionDepth startedRunner.
Proof.
  apply (C3_reachable_bookkeeping startedRunner).
  exists [(calm selectTransaction 0 None, CallStart)]. reflexivity.
Defined.

(** ** Commit and rollback without a transaction *)

(** C4: commitTransaction and rollbackTransaction fail with
    TransactionNotStartedError exactly when the runner is inactive and holds
    no engine handle; on that failure nothing is broadcast and the runner is
    unchanged; and in a reachable runner with depth 0 and no engine handle
    both always fail so. *)
Theorem C4_not_started_exactly (env : Collaborators) (r : Runner) :
  (outcome (commitTransaction env r) = inl TransactionNotStartedError <->
   isTransactionActive r = false /\ transaction r = None) /\
  (outcome (rollbackTransaction env r) = inl TransactionNotStartedError <->
   isTransactionActive r = false /\ transaction r = None) /\
  (isTransactionActive r = false /\ transaction r = None ->
   commitTransaction env r =
     {| final := r; trace := [];
        outcome := inl TransactionNotStartedError |} /\
   rollbackTransaction env r =
     {| final := r; trace := [];
        outcome := inl TransactionNotStartedError |}) /\
  (reachable r -> transactionDepth r = 0 -> transaction r = None ->
   outcome (commitTransaction env r) = inl TransactionNotStartedError /\
   outcome (rollbackTransaction env r) = inl TransactionNotStartedError).
Proof.
  assert (isTransactionActive r = false /\ transaction r = None ->
          commitTransaction env r =
            {| final := r; trace := [];
               outcome := inl TransactionNotStartedError |} /\
          rollbackTransaction env r =
            {| final := r; trace := [];
               outcome := inl TransactionNotStartedError |}) as Hrefused.
  { intros H. apply notStarted_spec in H. split.
    - apply commitTransaction_refused, H.
    - apply rollbackTransaction_refused, H. }
  assert (forall m : Task unit,
             (notStarted r = false ->
              outcome (m r) <> inl TransactionNotStartedError) ->
             outcome (m r) = inl TransactionNotStartedError ->
             isTransactionActive r = false /\ transaction r = None) as Honly.
  { intros m Hm Hout. apply notStarted_spec.
    destruct (notStarted r) eqn:Hn; [reflexivity |].
    elim (Hm eq_refl). exact Hout. }
  split; [| split; [| split]].
  - split.
    + apply Honly. intros Hn. apply commitTransaction_accepted, Hn.
    + intros H. destruct (Hrefused H) as [-> _]. reflexivity.
  - split.
    + apply Honly. intros Hn. apply rollbackTransaction_accepted, Hn.
    + intros H. destruct (Hrefused H) as [_ ->]. reflexivity.
  - exact Hrefused.
  - intros Hreach Hdepth Hnone.
    destruct (reachable_settled r Hreach) as (_ & Ha & _).
    assert (isTransactionActive r = false) as Hoff.
    { destruct (isTransactionActive r); [| reflexivity].
      specialize (Ha eq_refl). lia. }
    destruct (Hrefused (conj Hoff Hnone)) as [-> ->]. split; reflexivity.
Qed.

(** C4 on the fresh runner. *)
Lemma C4_not_started_witness :
  (commitTransaction (calm selectTransaction 0 None) initialRunner =
     {| final := initialRunner; trace := [];
        outcome := inl TransactionNotStartedError |} /\
   rollbackTransaction (calm selectTransaction 0 None) initialRunner =
     {| final := initialRunner; trace := [];
        outcome := inl TransactionNotStartedError |}) /\
  (outcome (commitTransaction (calm selectTransaction 0 None) initialRunner) =
     inl TransactionNotStartedError /\
   outcome (rollbackTransaction (calm selectTransaction 0 None) initialRunner) =
     inl TransactionNotStartedError).
Proof.
  destruct (C4_not_started_exactly (calm selectTransaction 0 None)
              initialRunner) as (_ & _ & H3 & H4).
  split.
  - apply H3. split; reflexivity.
  - apply H4.
    + exists []. reflexivity.
    + reflexivity.
    + reflexivity.
Defined.

(** ** The result of an insert *)

Ltac in_trace := cbv; repeat (first [left; reflexivity | right]).



(** ** What the call resolves with *)

(** C6 against the code: for an insert whose statement handle reports the
    row identifier 0, a query that resolves with a structured result has
    that identifier as its raw field, so the raw field is not absent; the
    same query without a structured result resolves with the empty
    sequence instead of the raw field, because [result?.raw || []] takes 0
    for an absent value. *)
Theorem C6_zero_row_id_lost
  (env : Collaborators) (sql rest : string)
  (parameters : option (list Value)) (r : Runner) (h : StatementHandle) :
  sql = ("INSERT INTO" ++ rest)%string ->
  runAsync (scope_transaction env) sql
    match parameters with
    | Some ps => ps
    | None => []
    end = Fulfilled h ->
  lastInsertRowId h = Some 0 ->
  (forall v,
     In (PromiseOk v) (trace (query env sql parameters true r)) ->
     exists result, v = Structured result /\ raw result = Some (RawId 0)) /\
  (forall v,
     In (PromiseOk v) (trace (query env sql parameters false r)) ->
     v = Plain (RawRows [])).
Proof.
  intros Hsql Hrun Hid.
  pose proof (isInsert_literal sql rest Hsql) as Hinsert.
  split; intros v Hin.
  - destruct (query_resolved_with env sql parameters true r v Hin)
      as (rows & Hv & _).
    rewrite (statementOf_fulfilled env sql parameters h Hrun) in Hv.
    exists (shapeResult (Some h) rows sql). split; [exact Hv |].
    rewrite (shapeResult_insert (Some h) rows sql Hinsert).
    cbn [insertedId]. rewrite Hid. reflexivity.
  - destruct (query_resolved_with env sql parameters false r v Hin)
      as (rows & Hv & _).
    rewrite (statementOf_fulfilled env sql parameters h Hrun) in Hv.
    subst v. unfold resolution, raw_or_empty.
    rewrite (shapeResult_insert (Some h) rows sql Hinsert).
    cbn [insertedId]. rewrite Hid. reflexivity.
Qed.

(** C6's failing input: an insert on a fresh runner whose handle reports
    the row identifier 0. *)
Lemma C6_zero_row_id_lost_witness :
  (exists result,
     Structured {| affected := Some 1;
                   raw := Some (RawId 0);
                   records := None |} = Structured result /\
     raw result = Some (RawId 0)) /\
  Plain (RawRows []) = Plain (RawRows []).
Proof.
  destruct (C6_zero_row_id_lost (calm (insertTransaction 0) 0 None) insertSql
              " t (x) VALUES (1)"%string None initialRunner
              (bareStatement 1 0) eq_refl eq_refl eq_refl)
    as [Hstructured Hplain].
  split.
  - apply Hstructured. in_trace.
  - apply Hplain. in_trace.
Defined.

(** The two calls of C6's failing input do resolve: with a structured
    result the raw field is the identifier 0, without one the value is the
    empty sequence. *)
Lemma C6_zero_row_id_gives_empty_sequence :
  let env := calm (insertTransaction 0) 0 None in
  let result := shapeResult (statementOf env insertSql None) (Some [])
                  insertSql in
  settlements (trace (query env insertSql None true initialRunner)) =
    [PromiseOk (Structured result)] /\
  raw result = Some (RawId 0) /\
  raw result <> None /\
  settlements (trace (query env insertSql None false initialRunner)) =
    [PromiseOk (Plain (RawRows []))].
Proof.
  repeat split; try reflexivity. discriminate.
Qed.

(** ** The fallback path and the statement handle *)

(** C10, as stated, fails: when [runAsync] resolves and only the fetch
    through its handle raises, the rows come from the fallback and the
    handle is still there: the result has [affected] set, and an insert
    resolves with the row identifier. *)
Lemma C10_handle_survives_fallback :
  let env := calm (insertTransaction 7) 0 None in
  let result := shapeResult (statementOf env insertSql None) (Some [])
                  insertSql in
  primaryRaised env insertSql None = true /\
  filter isEngineCall
    (trace (query env insertSql None true initialRunner)) =
    [RunAsync insertSql []; HandleGetAll insertSql [];
     TransactionGetAll insertSql []] /\
  settlements (trace (query env insertSql None true initialRunner)) =
    [PromiseOk (Structured result)] /\
  affected result = Some 1 /\
  raw result = Some (RawId 7) /\
  settlements (trace (query env insertSql None false initialRunner)) =
    [PromiseOk (Plain (RawId 7))].
Proof.
  repeat split; reflexivity.
Qed.

(** C10, amended: for every query that resolves via the fallback path
    because [runAsync] itself raised, so that no statement handle exists,
    the result never has [affected] set, and if the text starts with
    [INSERT INTO] its raw field is absent, so that without a structured
    result the call resolves with the empty sequence.  When [runAsync]
    resolved and only the fetch through its handle raised, the handle is
    kept: [affected] is its change count and, for an insert, the raw field
    is its row identifier, with which the call resolves when no structured
    result is asked for and the identifier is not 0. *)
Theorem C10_fallback_without_handle
  (env : Collaborators) (sql : string) (parameters : option (list Value))
  (useStructuredResult : bool) (r : Runner) (v : Resolution) :
  In (PromiseOk v) (trace (query env sql parameters useStructuredResult r)) ->
  let tr := trace (query env sql parameters useStructuredResult r) in
  let params := match parameters with
                | Some ps => ps
                | None => []
                end in
  (forall c,
     runAsync (scope_transaction env) sql params = Rejected c ->
     In (TransactionGetAll sql params) tr /\
     (useStructuredResult = true ->
      exists result,
        v = Structured result /\
        affected result = None /\
        (forall rest,
           sql = ("INSERT INTO" ++ rest)%string -> raw result = None)) /\
     (useStructuredResult = false ->
      forall rest,
        sql = ("INSERT INTO" ++ rest)%string -> v = Plain (RawRows []))) /\
  (forall h c,
     runAsync (scope_transaction env) sql params = Fulfilled h ->
     handle_getAllAsync h sql params = Rejected c ->
     In (TransactionGetAll sql params) tr /\
     (useStructuredResult = true ->
      exists result,
        v = Structured result /\
        affected result = changes h /\
        (forall rest,
           sql = ("INSERT INTO" ++ rest)%string ->
           raw result = option_map RawId (lastInsertRowId h))) /\
     (useStructuredResult = false ->
      forall rest id,
        sql = ("INSERT INTO" ++ rest)%string ->
        lastInsertRowId h = Some id -> id <> 0 ->
        v = Plain (RawId id))).
Proof.
  intros Hin tr params.
  destruct (query_resolved_with env sql parameters useStructuredResult r v
              Hin) as (rows & Hv & Hcalls & _).
  assert (primaryRaised env sql parameters = true ->
          In (TransactionGetAll sql params) tr) as Hfallback.
  { intros Hraised. subst tr.
    apply (proj1 (filter_In isEngineCall _ _)). rewrite Hcalls.
    apply (fallback_called env sql parameters Hraised). }
  split.
  - intros c Hrun.
    destruct (statementOf_rejected env sql parameters c Hrun)
      as [Hnone Hraised].
    rewrite Hnone in Hv.
    split; [exact (Hfallback Hraised) |]. split.
    + intros ->. exists (shapeResult None rows sql).
      split; [exact Hv |]. split; [apply shapeResult_affected |].
      intros rest Hsql.
      rewrite (shapeResult_insert None rows sql
                 (isInsert_literal sql rest Hsql)).
      reflexivity.
    + intros -> rest Hsql. subst v. unfold resolution.
      rewrite (shapeResult_insert None rows sql
                 (isInsert_literal sql rest Hsql)).
      reflexivity.
  - intros h c Hrun Hfetch.
    rewrite (statementOf_fulfilled env sql parameters h Hrun) in Hv.
    split;
      [exact (Hfallback (primaryRaised_handle env sql parameters h c Hrun
                           Hfetch)) |].
    split.
    + intros ->. exists (shapeResult (Some h) rows sql).
      split; [exact Hv |]. split; [apply shapeResult_affected |].
      intros rest Hsql.
      rewrite (shapeResult_insert (Some h) rows sql
                 (isInsert_literal sql rest Hsql)).
      reflexivity.
    + intros -> rest id Hsql Hid Hnz. subst v.
      unfold resolution, raw_or_empty.
      rewrite (shapeResult_insert (Some h) rows sql
                 (isInsert_literal sql rest Hsql)).
      cbn [insertedId]. rewrite Hid. cbn [option_map].
      apply Z.eqb_neq in Hnz. rewrite Hnz. reflexivity.
Qed.

(** The amended C10 on an insert whose [runAsync] raises, and on an insert
    whose handle cannot be fetched through. *)
Lemma C10_fallback_without_handle_witness :
  (let env := calm (fetchOnlyTransaction (Some [oneRow])) 0 None in
   In (TransactionGetAll insertSql [])
      (trace (query env insertSql None false initialRunner)) /\
   (false = true ->
    exists result,
      Plain (RawRows []) = Structured result /\
      affected result = None /\
      (forall rest,
         insertSql = ("INSERT INTO" ++ rest)%string -> raw result = None)) /\
   (false = false ->
    forall rest,
      insertSql = ("INSERT INTO" ++ rest)%string ->
      Plain (RawRows []) = Plain (RawRows []))) /\
  (let env := calm (insertTransaction 7) 0 None in
   In (TransactionGetAll insertSql [])
      (trace (query env insertSql None false initialRunner)) /\
   (false = true ->
    exists result,
      Plain (RawId 7) = Structured result /\
      affected result = changes (bareStatement 1 7) /\
      (forall rest,
         insertSql = ("INSERT INTO" ++ rest)%string ->
         raw result =
           option_map RawId (lastInsertRowId (bareStatement 1 7)))) /\
   (false = false ->
    forall rest id,
      insertSql = ("INSERT INTO" ++ rest)%string ->
      lastInsertRowId (bareStatement 1 7) = Some id -> id <> 0 ->
      Plain (RawId 7) = Plain (RawId id))).
Proof.
  split.
  - destruct (C10_fallback_without_handle
                (calm (fetchOnlyTransaction (Some [oneRow])) 0 None)
                insertSql None false initialRunner (Plain (RawRows [])))
      as [Hnone _].
    + in_trace.
    + apply (Hnone 2%nat). reflexivity.
  - destruct (C10_fallback_without_handle
                (calm (insertTransaction 7) 0 None)
                insertSql None false initialRunner (Plain (RawId 7)))
      as [_ Hkept].
    + in_trace.
    + apply (Hkept (bareStatement 1 7) 1%nat); reflexivity.
Defined.

(** ** The implicit start *)

(** C2, as stated, fails: on a runner on which startTransaction was called,
    a logical transaction is active and the work callback still calls
    startTransaction, because no engine handle is held yet; the depth goes
    to 2. *)
Lemma C2_active_runner_starts_again :
  let env := calm selectTransaction 0 None in
  let w := work env selectSql None false selectTransaction startedRunner in
  isTransactionActive startedRunner = true /\
  ~ (In (Broadcast BeforeTransactionStart) (trace w) <->
     isTransactionActive startedRunner = false) /\
  filter isStartEvent
    (beforeSubmission (trace (query env selectSql None false startedRunner))) =
    [Broadcast BeforeTransactionStart; Broadcast AfterTransactionStart] /\
  transactionDepth (final w) = 2.
Proof.
  intros env w. split; [reflexivity |]. split; [| split; reflexivity].
  intros [H _].
  assert (In (Broadcast BeforeTransactionStart) (trace w)) as Hin
    by (left; reflexivity).
  specialize (H Hin). discriminate H.
Qed.

(** C2, amended: for every call to query, the work callback calls
    startTransaction if and only if no engine handle is held at that moment,
    whether or not the runner is active, and records the scope's handle when
    startTransaction returns; hence for every query whose statement reaches
    the engine, exactly one start event sequence precedes the submission
    when no engine handle was held, and none when one was held. *)
Theorem C2_implicit_start_iff_no_handle
  (env : Collaborators) (sql : string) (parameters : option (list Value))
  (useStructuredResult : bool) (txn : ITransaction) (r : Runner) :
  (In (Broadcast BeforeTransactionStart)
      (trace (work env sql parameters useStructuredResult txn r)) <->
   transaction r = None) /\
  (transaction r = None ->
   outcome (implicitStart env txn r) = inr tt ->
   transaction (final (implicitStart env txn r)) = Some txn) /\
  (existsb isSubmission
     (trace (query env sql parameters useStructuredResult r)) = true ->
   filter isStartEvent
     (beforeSubmission
        (trace (query env sql parameters useStructuredResult r))) =
     match transaction r with
     | None =>
         [Broadcast BeforeTransactionStart; Broadcast AfterTransactionStart]
     | Some _ => []
     end).
Proof.
  split; [| split].
  - rewrite work_trace. split.
    + intros Hin. destruct (transaction r) eqn:Ht; [| reflexivity].
      rewrite implicitStart_held in Hin by congruence.
      cbn [trace outcome final app] in Hin.
      destruct (guarded_events env sql parameters useStructuredResult txn r)
        as [Hall _].
      elim (class_excludes isStatementEvent _
              (Broadcast BeforeTransactionStart) Hall eq_refl Hin).
    + intros Ht. apply in_or_app. left.
      rewrite implicitStart_fresh by exact Ht.
      destruct (subscribers env BeforeTransactionStart);
        [| destruct (subscribers env AfterTransactionStart)];
        left; reflexivity.
  - intros Ht. rewrite implicitStart_fresh by exact Ht.
    destruct (subscribers env BeforeTransactionStart); [discriminate |].
    destruct (subscribers env AfterTransactionStart); [discriminate |].
    reflexivity.
  - apply query_start_events.
Qed.

(** The amended C2 on a runner on which startTransaction was called. *)
Lemma C2_implicit_start_witness :
  let env := calm selectTransaction 0 None in
  transaction (final (implicitStart env selectTransaction startedRunner)) =
    Some selectTransaction /\
  filter isStartEvent
    (beforeSubmission (trace (query env selectSql None false startedRunner))) =
    [Broadcast BeforeTransactionStart; Broadcast AfterTransactionStart].
Proof.
  destruct (C2_implicit_start_iff_no_handle (calm selectTransaction 0 None)
              selectSql None false selectTransaction startedRunner)
    as (_ & Hhandle & Hstart).
  split.
  - apply Hhandle; reflexivity.
  - apply Hstart. reflexivity.
Defined.

(** ** The two paths of execution *)

(** C7, as stated, fails: an insert whose [runAsync] raises and whose
    fallback fetch gives one row resolves, but with the empty sequence and
    not with the fallback's row; when [runAsync] gives a handle and only
    the fetch through it raises, the insert resolves with the handle's row
    identifier. *)
Lemma C7_insert_fallback_rows_not_returned :
  let env := calm (fetchOnlyTransaction (Some [oneRow])) 0 None in
  let env' := calm (acceptingTransaction (bareStatement 1 7) (Some [oneRow]))
                0 None in
  (getAllAsync (scope_transaction env) insertSql [] =
     Fulfilled (Some [oneRow]) /\
   settlements (trace (query env insertSql None false initialRunner)) =
     [PromiseOk (Plain (RawRows []))] /\
   ~ In (PromiseOk (Plain (RawRows [oneRow])))
        (trace (query env insertSql None false initialRunner))) /\
  (getAllAsync (scope_transaction env') insertSql [] =
     Fulfilled (Some [oneRow]) /\
   settlements (trace (query env' insertSql None false initialRunner)) =
     [PromiseOk (Plain (RawId 7))] /\
   ~ In (PromiseOk (Plain (RawRows [oneRow])))
        (trace (query env' insertSql None false initialRunner))).
Proof.
  repeat split; try reflexivity; cbv; intuition discriminate.
Qed.

(** C7, amended: for every query the engine, if it is called at all, is
    first given the statement through [runAsync], then asked for the rows
    through the handle obtained, and on any error of that path asked once
    more through [getAllAsync] of the scope's transaction object, each time
    with the query text and the parameters, or the empty list when none
    were given.  When the primary path raised and that fallback gives rows,
    a query that reached the engine and whose after-query broadcast was
    awaited without error resolves: the fallback's rows are the rows the
    after-query subscribers are told and, when there are any, the records
    of the result.  When the text does not start with [INSERT INTO] they
    are also the raw field and, without a structured result, the value
    resolved with (the empty sequence when there are none).  When the text
    starts with [INSERT INTO] the raw field is the row identifier of the
    statement handle when [runAsync] had given one, and absent otherwise;
    without a structured result the call then resolves with that identifier
    when it is not 0, and with the empty sequence when there is no handle
    or no identifier. *)
Theorem C7_fallback_resolves
  (env : Collaborators) (sql : string) (parameters : option (list Value))
  (useStructuredResult : bool) (r : Runner) :
  let tr := trace (query env sql parameters useStructuredResult r) in
  let params := match parameters with
                | Some ps => ps
                | None => []
                end in
  let txn := scope_transaction env in
  (filter isEngineCall tr = [] \/
   filter isEngineCall tr =
     RunAsync sql params ::
     match runAsync txn sql params with
     | Rejected _ => [TransactionGetAll sql params]
     | Fulfilled h =>
         HandleGetAll sql params ::
         match handle_getAllAsync h sql params with
         | Rejected _ => [TransactionGetAll sql params]
         | Fulfilled _ => []
         end
     end) /\
  (forall rows,
     isReleased r = false ->
     scope_failure env = None ->
     (transaction r = None ->
      subscribers env BeforeTransactionStart = None /\
      subscribers env AfterTransactionStart = None) ->
     wait_after_query env = None ->
     ((exists c, runAsync txn sql params = Rejected c) \/
      (exists h c,
         runAsync txn sql params = Fulfilled h /\
         handle_getAllAsync h sql params = Rejected c)) ->
     getAllAsync txn sql params = Fulfilled rows ->
     exists v,
       settlements tr = [PromiseOk v] /\
       filter isEngineCall tr =
         RunAsync sql params ::
         match runAsync txn sql params with
         | Rejected _ => []
         | Fulfilled _ => [HandleGetAll sql params]
         end ++ [TransactionGetAll sql params] /\
       In (BroadcastAfterQuery sql parameters true
             (Some (queryEndTime env - queryStartTime env)) rows None) tr /\
       (useStructuredResult = true ->
        exists result,
          v = Structured result /\
          (forall row more,
             rows = Some (row :: more) ->
             records result = Some (row :: more)) /\
          (String.prefix "INSERT INTO" sql = false ->
           raw result =
             match rows with
             | Some (row :: more) => Some (RawRows (row :: more))
             | _ => None
             end) /\
          (String.prefix "INSERT INTO" sql = true ->
           raw result =
             match runAsync txn sql params with
             | Fulfilled h => option_map RawId (lastInsertRowId h)
             | Rejected _ => None
             end)) /\
       (useStructuredResult = false ->
        (String.prefix "INSERT INTO" sql = false ->
         v = Plain (RawRows match rows with
                            | Some fetched => fetched
                            | None => []
                            end)) /\
        (String.prefix "INSERT INTO" sql = true ->
         (forall h id,
            runAsync txn sql params = Fulfilled h ->
            lastInsertRowId h = Some id -> id <> 0 ->
            v = Plain (RawId id)) /\
         ((exists c, runAsync txn sql params = Rejected c) \/
          (exists h,
             runAsync txn sql params = Fulfilled h /\
             lastInsertRowId h = None) ->
          v = Plain (RawRows []))))).
Proof.
  intros tr params txn. split.
  - subst tr. pose proof (fetchTrace_calls env sql parameters) as Hcalls.
    cbv zeta in Hcalls. fold params txn in Hcalls. rewrite <- Hcalls.
    apply query_engine_calls.
  - intros rows Hrel Hopen Hstart Hwait Hprimary Hfallback.
    assert (primaryRaised env sql parameters = true) as Hraised.
    { destruct Hprimary as [[c Hrun] | (h & c & Hrun & Hfetch)].
      - apply (statementOf_rejected env sql parameters c Hrun).
      - apply (primaryRaised_handle env sql parameters h c Hrun Hfetch). }
    assert (fetchOutcome env sql parameters =
              inr (statementOf env sql parameters, rows)) as Hfetch.
    { rewrite fetchOutcome_fallback by exact Hraised.
      unfold params_or_empty. fold params txn. rewrite Hfallback.
      reflexivity. }
    exists (resolution useStructuredResult
              (shapeResult (statementOf env sql parameters) rows sql)).
    split; [| split; [| split; [| split]]].
    + apply query_resolved_settlements; assumption.
    + subst tr.
      rewrite (query_resolved_engine_calls env sql parameters
                 useStructuredResult r (statementOf env sql parameters) rows
                 Hrel Hopen Hstart Hfetch Hwait).
      pose proof (fetchTrace_calls env sql parameters) as Hcalls.
      cbv zeta in Hcalls. fold params txn in Hcalls. rewrite Hcalls.
      destruct Hprimary as [[c Hrun] | (h & c & Hrun & Hhandle)];
        rewrite Hrun; [| rewrite Hhandle]; reflexivity.
    + apply (query_resolved_rows env sql parameters useStructuredResult r
               (statementOf env sql parameters) rows); assumption.
    + intros ->.
      exists (shapeResult (statementOf env sql parameters) rows sql).
      split; [reflexivity |]. split; [| split].
      * intros row more ->. apply shapeResult_records.
      * intros Hselect. apply shapeResult_select. exact Hselect.
      * intros Hinsert. rewrite shapeResult_insert by exact Hinsert.
        unfold statementOf, params_or_empty. fold params txn.
        destruct (runAsync txn sql params); reflexivity.
    + intros ->. unfold resolution, raw_or_empty. split.
      * intros Hselect. rewrite shapeResult_select by exact Hselect.
        destruct rows as [[| row more] |]; reflexivity.
      * intros Hinsert. rewrite shapeResult_insert by exact Hinsert.
        unfold statementOf, params_or_empty. fold params txn. split.
        -- intros h id Hrun Hid Hnz. rewrite Hrun. cbn [insertedId].
           rewrite Hid. cbn [option_map]. apply Z.eqb_neq in Hnz.
           rewrite Hnz. reflexivity.
        -- intros [[c Hrun] | (h & Hrun & Hid)]; rewrite Hrun;
             cbn [insertedId]; [| rewrite Hid]; reflexivity.
Qed.

(** The amended C7 on a select whose [runAsync] raises. *)
Lemma C7_fallback_resolves_witness :
  let env := calm (fetchOnlyTransaction (Some [oneRow])) 0 None in
  let tr := trace (query env selectSql None false initialRunner) in
  exists v,
    settlements tr = [PromiseOk v] /\
    filter isEngineCall tr =
      RunAsync selectSql [] ::
      match runAsync (scope_transaction env) selectSql [] with
      | Rejected _ => []
      | Fulfilled _ => [HandleGetAll selectSql []]
      end ++ [TransactionGetAll selectSql []] /\
    In (BroadcastAfterQuery selectSql None true
          (Some (queryEndTime env - queryStartTime env)) (Some [oneRow])
          None) tr /\
    (false = false ->
     (String.prefix "INSERT INTO" selectSql = false ->
      v = Plain (RawRows [oneRow]))).
Proof.
  intros env tr.
  destruct (C7_fallback_resolves env selectSql None false initialRunner)
    as (_ & H).
  destruct (H (Some [oneRow])) as (v & Hsettle & Hcalls & Hrows & _ & Hplain).
  - reflexivity.
  - reflexivity.
  - intros _. split; reflexivity.
  - reflexivity.
  - left. exists 2%nat. reflexivity.
  - reflexivity.
  - exists v. split; [exact Hsettle |]. split; [exact Hcalls |].
    split; [exact Hrows |]. intros Hs Hselect.
    apply (proj1 (Hplain Hs) Hselect).
Defined.

(** ** The slow-query log *)

(** C8, as stated, fails: with the threshold configured as 0 a query that
    takes 5 milliseconds resolves and is not logged as slow. *)
Lemma C8_zero_threshold_never_logs :
  let env := calm selectTransaction 5 (Some 0) in
  let tr := trace (query env selectSql None false initialRunner) in
  let E := queryEndTime env - queryStartTime env in
  maxQueryExecutionTime env = Some 0 /\
  0 < E /\
  settlements tr = [PromiseOk (Plain (RawRows [oneRow]))] /\
  ~ In (LogQuerySlow E selectSql None) tr /\
  filter isSlowLog tr = [].
Proof.
  repeat split; try reflexivity.
  cbv. intuition discriminate.
Qed.

(** C8, amended: for every configured slow-query threshold T other than 0
    and every query that resolves with elapsed time E, the slow-query sink
    is called, once, with exactly E and the query text and parameters when
    E > T, and is not called when E <= T; and the call resolves with the same
    value whatever the clock readings and the threshold are. *)
Theorem C8_slow_query_log
  (env : Collaborators) (sql : string) (parameters : option (list Value))
  (useStructuredResult : bool) (r : Runner) (v : Resolution) (T : Z) :
  maxQueryExecutionTime env = Some T ->
  T <> 0 ->
  In (PromiseOk v) (trace (query env sql parameters useStructuredResult r)) ->
  let tr := trace (query env sql parameters useStructuredResult r) in
  let E := queryEndTime env - queryStartTime env in
  (T < E -> filter isSlowLog tr = [LogQuerySlow E sql parameters]) /\
  (E <= T -> filter isSlowLog tr = []) /\
  (forall startTime endTime limit,
     settlements
       (trace (query (retimed env startTime endTime limit) sql parameters
                 useStructuredResult r)) =
     [PromiseOk v]).
Proof.
  intros Hlimit Hnonzero Hin tr E.
  destruct (query_resolved_inv env sql parameters useStructuredResult r v Hin)
    as (Hrel & Hopen & Hstart & Hwait & t & rows & Hfetch & Hv).
  pose proof (query_resolved_slow_log env sql parameters useStructuredResult
                r t rows Hrel Hopen Hstart Hfetch Hwait) as Hlog.
  fold tr in Hlog. unfold isSlow, queryExecutionTime in Hlog.
  rewrite Hlimit in Hlog. fold E in Hlog.
  apply Z.eqb_neq in Hnonzero. rewrite Hnonzero in Hlog. cbn [negb andb] in Hlog.
  split; [| split].
  - intros Hslow. apply Z.ltb_lt in Hslow. rewrite Hslow in Hlog. exact Hlog.
  - intros Hfast. apply Z.ltb_ge in Hfast. rewrite Hfast in Hlog. exact Hlog.
  - intros startTime endTime limit. subst v.
    apply (query_resolved_settlements (retimed env startTime endTime limit)
             sql parameters useStructuredResult r t rows); assumption.
Qed.

(** The amended C8 with a threshold of 3 and a query of 5 milliseconds. *)
Lemma C8_slow_query_log_witness :
  let env := calm selectTransaction 5 (Some 3) in
  let tr := trace (query env selectSql None false initialRunner) in
  let E := queryEndTime env - queryStartTime env in
  (3 < E -> filter isSlowLog tr = [LogQuerySlow E selectSql None]) /\
  (E <= 3 -> filter isSlowLog tr = []) /\
  (forall startTime endTime limit,
     settlements
       (trace (query (retimed env startTime endTime limit) selectSql None
                 false initialRunner)) =
     [PromiseOk (Plain (RawRows [oneRow]))]).
Proof.
  apply (C8_slow_query_log (calm selectTransaction 5 (Some 3)) selectSql None
           false initialRunner (Plain (RawRows [oneRow])) 3).
  - reflexivity.
  - lia.
  - in_trace.
Defined.

(** ** The failure callback *)

(** C9 against the code: a subscriber raises on BeforeTransactionStart of
    the implicit start of a query on a fresh runner.  The work callback
    raises, the engine calls the failure callback, rollbackTransaction raises
    TransactionNotStartedError there, and [fail] is never called: the query
    ends with neither [ok] nor [fail] called.  The same happens when the
    scope fails before the work callback runs. *)
Theorem C9_failed_scope_left_unsettled :
  let env := raisingOn isBeforeStart selectTransaction in
  let w := work env selectSql None false selectTransaction initialRunner in
  let run := query env selectSql None false initialRunner in
  outcome w = inl (Thrown 3%nat) /\
  outcome (onFailure env (Thrown 3%nat) (final w)) =
    inl TransactionNotStartedError /\
  trace run =
    [LogQuery selectSql None; BroadcastBeforeQuery selectSql None;
     Broadcast BeforeTransactionStart] /\
  settlements (trace run) = [] /\
  outcome run = inr tt /\
  settlements
    (trace (query {| subscribers := fun _ => None;
                     wait_after_query := None;
                     wait_after_error := None;
                     scope_failure := Some 5%nat;
                     scope_transaction := selectTransaction;
                     queryStartTime := 0;
                     queryEndTime := 0;
                     maxQueryExecutionTime := None |}
              selectSql None false initialRunner)) = [].
Proof.
  repeat split; reflexivity.
Qed.

(** * Further properties of the runner *)

(** ** The controller under raising subscribers *)

Lemma commitTransaction_run (env : Collaborators) (r : Runner) :
  notStarted r = false ->
  commitTransaction env r =
    match subscribers env BeforeTransactionCommit with
    | Some c =>
        {| final := r;
           trace := [Broadcast BeforeTransactionCommit];
           outcome := inl (Thrown c) |}
    | None =>
        {| final := closeBookkeeping r;
           trace := [Broadcast BeforeTransactionCommit;
                     Broadcast AfterTransactionCommit];
           outcome := match subscribers env AfterTransactionCommit with
                      | Some c => inl (Thrown c)
                      | None => inr tt
                      end |}
    end.
Proof.
  destruct r as [released active depth txn].
  destruct active, txn; run_cases; intros H; try discriminate; reflexivity.
Qed.

Lemma rollbackTransaction_run (env : Collaborators) (r : Runner) :
  notStarted r = false ->
  rollbackTransaction env r =
    match subscribers env BeforeTransactionRollback with
    | Some c =>
        {| final := r;
           trace := [Broadcast BeforeTransactionRollback];
           outcome := inl (Thrown c) |}
    | None =>
        {| final := closeBookkeeping r;
           trace := [Broadcast BeforeTransactionRollback;
                     Broadcast AfterTransactionRollback];
           outcome := match subscribers env AfterTransactionRollback with
                      | Some c => inl (Thrown c)
                      | None => inr tt
                      end |}
    end.
Proof.
  destruct r as [released active depth txn].
  destruct active, txn; run_cases; intros H; try discriminate; reflexivity.
Qed.

Lemma closeBookkeeping_notStarted (r : Runner) :
  notStarted (closeBookkeeping r) = true.
Proof. reflexivity. Qed.

(** X1: when a subscriber of BeforeTransactionStart raises, startTransaction
    raises that very error, broadcasts nothing more, leaves the depth and
    the engine handle as they were and leaves the runner inactive, also when
    it was active before; when only a subscriber of AfterTransactionStart
    raises, the error is raised too, but the transaction stays started:
    the runner is active and the depth is one more. *)
Theorem X1_startTransaction_raising_subscriber
  (env : Collaborators) (r : Runner) (c : Cause) :
  (subscribers env BeforeTransactionStart = Some c ->
   let o := startTransaction env r in
   outcome o = inl (Thrown c) /\
   trace o = [Broadcast BeforeTransactionStart] /\
   isTransactionActive (final o) = false /\
   transactionDepth (final o) = transactionDepth r /\
   transaction (final o) = transaction r) /\
  (subscribers env BeforeTransactionStart = None ->
   subscribers env AfterTransactionStart = Some c ->
   let o := startTransaction env r in
   outcome o = inl (Thrown c) /\
   trace o = [Broadcast BeforeTransactionStart;
              Broadcast AfterTransactionStart] /\
   isTransactionActive (final o) = true /\
   transactionDepth (final o) = transactionDepth r + 1 /\
   transaction (final o) = transaction r).
Proof.
  split.
  - intros Hbefore o. subst o. rewrite startTransaction_run, Hbefore.
    repeat split.
  - intros Hbefore Hafter o. subst o.
    rewrite startTransaction_run, Hbefore, Hafter. repeat split.
Qed.

(** X1 on a runner that is active already, and on a fresh one. *)
Lemma X1_startTransaction_raising_witness :
  (let o := startTransaction (raisingOn isBeforeStart selectTransaction)
              startedRunner in
   outcome o = inl (Thrown 3%nat) /\
   trace o = [Broadcast BeforeTransactionStart] /\
   isTransactionActive (final o) = false /\
   transactionDepth (final o) = transactionDepth startedRunner /\
   transaction (final o) = transaction startedRunner) /\
  (let o := startTransaction (raisingOn isAfterStart selectTransaction)
              initialRunner in
   outcome o = inl (Thrown 3%nat) /\
   trace o = [Broadcast BeforeTransactionStart;
              Broadcast AfterTransactionStart] /\
   isTransactionActive (final o) = true /\
   transactionDepth (final o) = transactionDepth initialRunner + 1 /\
   transaction (final o) = transaction initialRunner).
Proof.
  split.
  - apply (X1_startTransaction_raising_subscriber
             (raisingOn isBeforeStart selectTransaction) startedRunner 3%nat).
    reflexivity.
  - apply (X1_startTransaction_raising_subscriber
             (raisingOn isAfterStart selectTransaction) initialRunner 3%nat);
      reflexivity.
Defined.

(** X2: a rollback that is not refused and whose BeforeTransactionRollback
    subscriber raises changes nothing: handle, activity and depth stay and
    the after-broadcast is not made; when only the AfterTransactionRollback
    subscriber raises, the bookkeeping is closed already (no handle,
    inactive, depth one less) although the call raises.  Commit behaves the
    same with its own two broadcasts. *)
Theorem X2_close_raising_subscriber
  (env : Collaborators) (r : Runner) (c : Cause) :
  notStarted r = false ->
  (subscribers env BeforeTransactionRollback = Some c ->
   rollbackTransaction env r =
     {| final := r; trace := [Broadcast BeforeTransactionRollback];
        outcome := inl (Thrown c) |}) /\
  (subscribers env BeforeTransactionRollback = None ->
   subscribers env AfterTransactionRollback = Some c ->
   let o := rollbackTransaction env r in
   outcome o = inl (Thrown c) /\
   transaction (final o) = None /\
   isTransactionActive (final o) = false /\
   transactionDepth (final o) = transactionDepth r - 1) /\
  (subscribers env BeforeTransactionCommit = Some c ->
   commitTransaction env r =
     {| final := r; trace := [Broadcast BeforeTransactionCommit];
        outcome := inl (Thrown c) |}) /\
  (subscribers env BeforeTransactionCommit = None ->
   subscribers env AfterTransactionCommit = Some c ->
   let o := commitTransaction env r in
   outcome o = inl (Thrown c) /\
   transaction (final o) = None /\
   isTransactionActive (final o) = false /\
   transactionDepth (final o) = transactionDepth r - 1).
Proof.
  intros Hstarted. split; [| split; [| split]].
  - intros Hbefore. rewrite rollbackTransaction_run by exact Hstarted.
    rewrite Hbefore. reflexivity.
  - intros Hbefore Hafter o. subst o.
    rewrite rollbackTransaction_run by exact Hstarted.
    rewrite Hbefore, Hafter. repeat split.
  - intros Hbefore. rewrite commitTransaction_run by exact Hstarted.
    rewrite Hbefore. reflexivity.
  - intros Hbefore Hafter o. subst o.
    rewrite commitTransaction_run by exact Hstarted.
    rewrite Hbefore, Hafter. repeat split.
Qed.

(** X2 on a runner on which startTransaction was called. *)
Lemma X2_close_raising_witness :
  (rollbackTransaction (raisingOn isBeforeRollback selectTransaction)
     startedRunner =
     {| final := startedRunner;
        trace := [Broadcast BeforeTransactionRollback];
        outcome := inl (Thrown 3%nat) |}) /\
  (let o := rollbackTransaction (raisingOn isAfterRollback selectTransaction)
              startedRunner in
   outcome o = inl (Thrown 3%nat) /\
   transaction (final o) = None /\
   isTransactionActive (final o) = false /\
   transactionDepth (final o) = transactionDepth startedRunner - 1) /\
  (commitTransaction (raisingOn isBeforeCommit selectTransaction)
     startedRunner =
     {| final := startedRunner;
        trace := [Broadcast BeforeTransactionCommit];
        outcome := inl (Thrown 3%nat) |}) /\
  (let o := commitTransaction (raisingOn isAfterCommit selectTransaction)
              startedRunner in
   outcome o = inl (Thrown 3%nat) /\
   transaction (final o) = None /\
   isTransactionActive (final o) = false /\
   transactionDepth (final o) = transactionDepth startedRunner - 1).
Proof.
  split; [| split; [| split]].
  - apply (X2_close_raising_subscriber
             (raisingOn isBeforeRollback selectTransaction) startedRunner
             3%nat); reflexivity.
  - apply (X2_close_raising_subscriber
             (raisingOn isAfterRollback selectTransaction) startedRunner
             3%nat); reflexivity.
  - apply (X2_close_raising_subscriber
             (raisingOn isBeforeCommit selectTransaction) startedRunner
             3%nat); reflexivity.
  - apply (X2_close_raising_subscriber
             (raisingOn isAfterCommit selectTransaction) startedRunner
             3%nat); reflexivity.
Defined.

(** X3: rollbackTransaction does to the runner exactly what
    commitTransaction does: when the rollback subscribers answer as the
    commit subscribers do, both leave the same runner and the same outcome,
    and make the same broadcasts up to the event names. *)
Theorem X3_rollback_is_commit (env : Collaborators) (r : Runner) :
  subscribers env BeforeTransactionRollback =
    subscribers env BeforeTransactionCommit ->
  subscribers env AfterTransactionRollback =
    subscribers env AfterTransactionCommit ->
  final (rollbackTransaction env r) = final (commitTransaction env r) /\
  outcome (rollbackTransaction env r) = outcome (commitTransaction env r) /\
  trace (rollbackTransaction env r) =
    map asRollback (trace (commitTransaction env r)).
Proof.
  intros Hbefore Hafter. destruct (notStarted r) eqn:Hn.
  - rewrite rollbackTransaction_refused, commitTransaction_refused
      by exact Hn.
    repeat split.
  - rewrite rollbackTransaction_run, commitTransaction_run by exact Hn.
    rewrite Hbefore, Hafter.
    destruct (subscribers env BeforeTransactionCommit); repeat split.
Qed.

(** X3 on a runner on which startTransaction was called. *)
Lemma X3_rollback_is_commit_witness :
  let env := calm selectTransaction 0 None in
  final (rollbackTransaction env startedRunner) =
    final (commitTransaction env startedRunner) /\
  outcome (rollbackTransaction env startedRunner) =
    outcome (commitTransaction env startedRunner) /\
  trace (rollbackTransaction env startedRunner) =
    map asRollback (trace (commitTransaction env startedRunner)).
Proof.
  apply (X3_rollback_is_commit (calm selectTransaction 0 None) startedRunner);
    reflexivity.
Defined.

(** X4: startTransaction followed by commitTransaction or by
    rollbackTransaction, no subscriber raising, brings the depth back to
    what it was and leaves the runner inactive and without engine handle,
    whatever the runner was before: closing a transaction started on an
    active runner deactivates that runner. *)
Theorem X4_start_then_close (env env' : Collaborators) (r : Runner) :
  subscribers env BeforeTransactionStart = None ->
  subscribers env AfterTransactionStart = None ->
  (subscribers env' BeforeTransactionCommit = None ->
   subscribers env' AfterTransactionCommit = None ->
   let o := commitTransaction env' (final (startTransaction env r)) in
   outcome (startTransaction env r) = inr tt /\
   outcome o = inr tt /\
   transactionDepth (final o) = transactionDepth r /\
   isTransactionActive (final o) = false /\
   transaction (final o) = None) /\
  (subscribers env' BeforeTransactionRollback = None ->
   subscribers env' AfterTransactionRollback = None ->
   let o := rollbackTransaction env' (final (startTransaction env r)) in
   outcome (startTransaction env r) = inr tt /\
   outcome o = inr tt /\
   transactionDepth (final o) = transactionDepth r /\
   isTransactionActive (final o) = false /\
   transaction (final o) = None).
Proof.
  intros Hbefore Hafter.
  rewrite startTransaction_run, Hbefore, Hafter. cbn [final outcome].
  split; intros Hb Ha; cbv zeta.
  - rewrite commitTransaction_run by reflexivity. rewrite Hb, Ha.
    cbn. repeat split. lia.
  - rewrite rollbackTransaction_run by reflexivity. rewrite Hb, Ha.
    cbn. repeat split. lia.
Qed.

(** X4 on a runner that is active already. *)
Lemma X4_start_then_close_witness :
  let env := calm selectTransaction 0 None in
  (let o := commitTransaction env (final (startTransaction env startedRunner))
   in
   outcome (startTransaction env startedRunner) = inr tt /\
   outcome o = inr tt /\
   transactionDepth (final o) = transactionDepth startedRunner /\
   isTransactionActive (final o) = false /\
   transaction (final o) = None) /\
  (let o := rollbackTransaction env
              (final (startTransaction env startedRunner)) in
   outcome (startTransaction env startedRunner) = inr tt /\
   outcome o = inr tt /\
   transactionDepth (final o) = transactionDepth startedRunner /\
   isTransactionActive (final o) = false /\
   transaction (final o) = None).
Proof.
  destruct (X4_start_then_close (calm selectTransaction 0 None)
              (calm selectTransaction 0 None) startedRunner eq_refl eq_refl)
    as [Hcommit Hrollback].
  split; [apply Hcommit | apply Hrollback]; reflexivity.
Defined.

(** X5: once a commit or a rollback has got past its before-broadcast, the
    next commit or rollback, whichever it is and whatever the subscribers
    do, fails with TransactionNotStartedError, broadcasts nothing and
    changes nothing. *)
Theorem X5_second_close_refused (env env' : Collaborators) (r : Runner) :
  notStarted r = false ->
  (subscribers env BeforeTransactionRollback = None ->
   let r1 := final (rollbackTransaction env r) in
   rollbackTransaction env' r1 =
     {| final := r1; trace := [];
        outcome := inl TransactionNotStartedError |} /\
   commitTransaction env' r1 =
     {| final := r1; trace := [];
        outcome := inl TransactionNotStartedError |}) /\
  (subscribers env BeforeTransactionCommit = None ->
   let r1 := final (commitTransaction env r) in
   rollbackTransaction env' r1 =
     {| final := r1; trace := [];
        outcome := inl TransactionNotStartedError |} /\
   commitTransaction env' r1 =
     {| final := r1; trace := [];
        outcome := inl TransactionNotStartedError |}).
Proof.
  intros Hstarted. split; intros Hbefore r1; subst r1.
  - rewrite (rollbackTransaction_run env r Hstarted), Hbefore.
    cbn [final]. split.
    + apply rollbackTransaction_refused, closeBookkeeping_notStarted.
    + apply commitTransaction_refused, closeBookkeeping_notStarted.
  - rewrite (commitTransaction_run env r Hstarted), Hbefore.
    cbn [final]. split.
    + apply rollbackTransaction_refused, closeBookkeeping_notStarted.
    + apply commitTransaction_refused, closeBookkeeping_notStarted.
Qed.

(** X5 on a runner on which startTransaction was called. *)
Lemma X5_second_close_refused_witness :
  let env := calm selectTransaction 0 None in
  (let r1 := final (rollbackTransaction env startedRunner) in
   rollbackTransaction env r1 =
     {| final := r1; trace := [];
        outcome := inl TransactionNotStartedError |} /\
   commitTransaction env r1 =
     {| final := r1; trace := [];
        outcome := inl TransactionNotStartedError |}) /\
  (let r1 := final (commitTransaction env startedRunner) in
   rollbackTransaction env r1 =
     {| final := r1; trace := [];
        outcome := inl TransactionNotStartedError |} /\
   commitTransaction env r1 =
     {| final := r1; trace := [];
        outcome := inl TransactionNotStartedError |}).
Proof.
  destruct (X5_second_close_refused (calm selectTransaction 0 None)
              (calm selectTransaction 0 None) startedRunner eq_refl)
    as [Hrollback Hcommit].
  split; [apply Hrollback | apply Hcommit]; reflexivity.
Defined.

(** ** A released runner *)






(** ** How often a query settles *)

Lemma detached_run (callback : Task unit) (r : Runner) :
  final (detached callback r) = final (callback r) /\
  trace (detached callback r) = trace (callback r).
Proof.
  unfold detached. rewrite try_catch_eq.
  destruct (outcome (callback r)); cbn; split;
    try reflexivity; apply app_nil_r.
Qed.

Lemma query_trace_by_work (env : Collaborators) (sql : string)
  (parameters : option (list Value)) (useStructuredResult : bool)
  (r : Runner) :
  isReleased r = false ->
  let w := work env sql parameters useStructuredResult
             (scope_transaction env) r in
  trace (query env sql parameters useStructuredResult r) =
    LogQuery sql parameters :: BroadcastBeforeQuery sql parameters ::
    match scope_failure env with
    | Some c => trace (onFailure env (Thrown c) r)
    | None =>
        trace w ++
        match outcome w with
        | inl e => trace (onFailure env e (final w))
        | inr _ => []
        end
    end.
Proof.
  intros Hrel w.
  destruct (query_running env sql parameters useStructuredResult r Hrel)
    as (_ & -> & _).
  do 2 f_equal. unfold withExclusiveTransactionAsync.
  destruct (scope_failure env) as [c |].
  - rewrite bind_eq, detached_returns. cbn [trace final outcome onComplete].
    destruct (detached_run (onFailure env (Thrown c)) r) as [_ ->].
    apply app_nil_r.
  - rewrite bind_eq, try_catch_eq. fold w.
    destruct (outcome w) as [e | []]; cbn [trace final outcome].
    + rewrite detached_returns. cbn [trace final outcome].
      destruct (detached_run (onFailure env e) (final w)) as [_ ->].
      apply app_nil_r.
    + cbn. rewrite !app_nil_r. reflexivity.
Qed.

Lemma query_final_by_work (env : Collaborators) (sql : string)
  (parameters : option (list Value)) (useStructuredResult : bool)
  (r : Runner) :
  isReleased r = false ->
  let w := work env sql parameters useStructuredResult
             (scope_transaction env) r in
  final (query env sql parameters useStructuredResult r) =
    final (onComplete
             match scope_failure env with
             | Some c => final (onFailure env (Thrown c) r)
             | None =>
                 match outcome w with
                 | inl e => final (onFailure env e (final w))
                 | inr _ => final w
                 end
             end).
Proof.
  intros Hrel w.
  destruct (query_running env sql parameters useStructuredResult r Hrel)
    as (-> & _ & _).
  unfold withExclusiveTransactionAsync.
  destruct (scope_failure env) as [c |].
  - rewrite bind_eq, detached_returns. cbn [trace final outcome].
    destruct (detached_run (onFailure env (Thrown c)) r) as [-> _].
    reflexivity.
  - rewrite bind_eq, try_catch_eq. fold w.
    destruct (outcome w) as [e | []]; cbn [trace final outcome].
    + rewrite detached_returns. cbn [trace final outcome].
      destruct (detached_run (onFailure env e) (final w)) as [-> _].
      reflexivity.
    + reflexivity.
Qed.

Lemma guarded_settlements (env : Collaborators) (sql : string)
  (parameters : option (list Value)) (useStructuredResult : bool)
  (r : Runner) :
  let g := guarded env sql parameters useStructuredResult
             (scope_transaction env) r in
  (outcome g = inr tt -> exists one, settlements (trace g) = [one]) /\
  (outcome g <> inr tt -> settlements (trace g) = []).
Proof.
  intros g. subst g.
  destruct (fetchOutcome env sql parameters) as [e | [t rows]] eqn:Hfetch.
  { destruct (guarded_rejected env sql parameters useStructuredResult r)
      as (_ & _ & Hone & Hnone); [left; eauto |].
    split; [| exact Hnone]. intros H. destruct (Hone H) as [e' He'].
    eauto. }
  destruct (wait_after_query env) as [c |] eqn:Hwait.
  { destruct (guarded_rejected env sql parameters useStructuredResult r)
      as (_ & _ & Hone & Hnone); [right; eauto |].
    split; [| exact Hnone]. intros H. destruct (Hone H) as [e' He'].
    eauto. }
  rewrite (guarded_resolved env sql parameters useStructuredResult r t rows
             Hfetch Hwait).
  cbn [trace outcome]. rewrite fetchTrace_shape.
  split; [intros _ | intros H; elim H; reflexivity].
  destruct (statementOf env sql parameters),
    (primaryRaised env sql parameters),
    (isSlow (maxQueryExecutionTime env) (queryExecutionTime env));
    eexists; reflexivity.
Qed.

Lemma start_not_settlement (x : Event) :
  isStartEvent x = true -> isSettlement x = false.
Proof. destruct x as [[] | | | | | | | | | | |]; cbn; congruence. Qed.

Lemma work_settlements (env : Collaborators) (sql : string)
  (parameters : option (list Value)) (useStructuredResult : bool)
  (r : Runner) :
  let w := work env sql parameters useStructuredResult
             (scope_transaction env) r in
  (outcome w = inr tt -> exists one, settlements (trace w) = [one]) /\
  (forall e, outcome w = inl e -> settlements (trace w) = []).
Proof.
  intros w. subst w. rewrite work_trace. unfold work. rewrite bind_eq.
  unfold settlements. rewrite filter_app.
  rewrite (class_filter_nil isStartEvent isSettlement _
             (implicitStart_events _ _ _) start_not_settlement).
  cbn [app].
  destruct (outcome (implicitStart env (scope_transaction env) r))
    as [e0 | []]; cbn [outcome].
  - split; [discriminate | reflexivity].
  - destruct (guarded_settlements env sql parameters useStructuredResult
                (final (implicitStart env (scope_transaction env) r)))
      as [Hone Hnone].
    split.
    + exact Hone.
    + intros e He. apply Hnone. congruence.
Qed.

(** X7: [ok] and [fail] together are called at most once by a query.  On a
    runner that is not released, when the failure callback is not entered
    they are called exactly once, inside the work callback; when it is
    entered with an error, [fail] is called once with that very error if
    rollbackTransaction returns there, and neither is called if it raises. *)
Theorem X7_settled_at_most_once
  (env : Collaborators) (sql : string) (parameters : option (list Value))
  (useStructuredResult : bool) (r : Runner) :
  let tr := trace (query env sql parameters useStructuredResult r) in
  (List.length (settlements tr) <= 1)%nat /\
  (isReleased r = false ->
   match failureEntry env sql parameters useStructuredResult r with
   | None => exists one, settlements tr = [one]
   | Some (e, r') =>
       match outcome (rollbackTransaction env r') with
       | inr _ => settlements tr = [PromiseFail e]
       | inl _ => settlements tr = []
       end
   end).
Proof.
  intros tr.
  assert (isReleased r = false ->
          match failureEntry env sql parameters useStructuredResult r with
          | None => exists one, settlements tr = [one]
          | Some (e, r') =>
              match outcome (rollbackTransaction env r') with
              | inr _ => settlements tr = [PromiseFail e]
              | inl _ => settlements tr = []
              end
          end) as Hcases.
  { intros Hrel. subst tr.
    rewrite (query_trace_by_work env sql parameters useStructuredResult r
               Hrel).
    unfold failureEntry. cbn [settlements filter isSettlement].
    fold (settlements).
    assert (forall e r',
               match outcome (rollbackTransaction env r') with
               | inr _ =>
                   settlements (trace (onFailure env e r')) = [PromiseFail e]
               | inl _ => settlements (trace (onFailure env e r')) = []
               end) as Hfailure.
    { intros e r'.
      destruct (outcome (rollbackTransaction env r')) as [e' | []] eqn:Hroll.
      - apply (onFailure_unsettled env e r' e' Hroll).
      - apply (onFailure_settles env e r' Hroll). }
    destruct (scope_failure env) as [c |].
    - apply Hfailure.
    - cbv zeta.
      destruct (work_settlements env sql parameters useStructuredResult r)
        as [Hone Hnone].
      destruct (outcome (work env sql parameters useStructuredResult
                           (scope_transaction env) r)) as [e | []] eqn:Hw.
      + unfold settlements. rewrite filter_app.
        fold (settlements (trace (work env sql parameters useStructuredResult
                                    (scope_transaction env) r))).
        rewrite (Hnone e eq_refl). cbn [app]. apply Hfailure.
      + rewrite app_nil_r. apply Hone. reflexivity. }
  split; [| exact Hcases].
  destruct (isReleased r) eqn:Hrel.
  - subst tr. rewrite query_released by exact Hrel. cbn. lia.
  - specialize (Hcases eq_refl).
    destruct (failureEntry env sql parameters useStructuredResult r)
      as [[e r'] |].
    + destruct (outcome (rollbackTransaction env r'));
        rewrite Hcases; cbn; lia.
    + destruct Hcases as [one ->]. cbn. lia.
Qed.

(** X7 on an engine whose scope fails before the work callback, on a
    runner that can be rolled back. *)
Lemma X7_settled_at_most_once_witness :
  let env := {| subscribers := fun _ => None;
                wait_after_query := None;
                wait_after_error := None;
                scope_failure := Some 5%nat;
                scope_transaction := selectTransaction;
                queryStartTime := 0;
                queryEndTime := 0;
                maxQueryExecutionTime := None |} in
  settlements (trace (query env selectSql None false startedRunner)) =
    [PromiseFail (Thrown 5%nat)].
Proof.
  intros env.
  destruct (X7_settled_at_most_once env selectSql None false startedRunner)
    as [_ H].
  exact (H eq_refl).
Defined.

(** ** The runner and the trace after a query *)

Lemma guarded_final (env : Collaborators) (sql : string)
  (parameters : option (list Value)) (useStructuredResult : bool)
  (txn : ITransaction) (r : Runner) :
  final (guarded env sql parameters useStructuredResult txn r) = r.
Proof.
  apply (guarded_keeps (fun x => x = r) env sql parameters
           useStructuredResult txn r eq_refl).
Qed.

Lemma work_final (env : Collaborators) (sql : string)
  (parameters : option (list Value)) (useStructuredResult : bool)
  (txn : ITransaction) (r : Runner) :
  final (work env sql parameters useStructuredResult txn r) =
    final (implicitStart env txn r).
Proof.
  unfold work. rewrite bind_eq.
  destruct (outcome (implicitStart env txn r)); cbn [final].
  - reflexivity.
  - apply guarded_final.
Qed.

Lemma work_outcome (env : Collaborators) (sql : string)
  (parameters : option (list Value)) (useStructuredResult : bool)
  (txn : ITransaction) (r : Runner) :
  outcome (implicitStart env txn r) = inr tt ->
  outcome (work env sql parameters useStructuredResult txn r) =
    outcome (guarded env sql parameters useStructuredResult txn
               (final (implicitStart env txn r))).
Proof.
  intros H. unfold work. rewrite bind_eq, H. reflexivity.
Qed.

Lemma implicitStart_final (env : Collaborators) (txn : ITransaction)
  (r : Runner) :
  startGoesThrough env r ->
  final (implicitStart env txn r) = afterImplicitStart txn r.
Proof.
  unfold startGoesThrough, afterImplicitStart. intros H.
  destruct (transaction r) eqn:Ht.
  - rewrite implicitStart_held by congruence. reflexivity.
  - rewrite implicitStart_fresh by exact Ht.
    destruct (H eq_refl) as [-> ->]. reflexivity.
Qed.

Lemma afterImplicitStart_rollback (txn : ITransaction) (r : Runner) :
  transaction r = None -> notStarted (afterImplicitStart txn r) = false.
Proof.
  intros H. unfold afterImplicitStart. rewrite H. reflexivity.
Qed.

Lemma onFailure_final (env : Collaborators) (err : Error) (r : Runner) :
  final (onFailure env err r) = final (rollbackTransaction env r).
Proof.
  unfold onFailure. rewrite bind_eq.
  destruct (outcome (rollbackTransaction env r)); reflexivity.
Qed.

(** The outer [try] statement when its [try] block raises. *)
Lemma guarded_failed (env : Collaborators) (sql : string)
  (parameters : option (list Value)) (useStructuredResult : bool)
  (r : Runner) (e : Error) :
  tryError env sql parameters = Some e ->
  guarded env sql parameters useStructuredResult (scope_transaction env) r =
    {| final := r;
       trace :=
         fetchTrace env sql parameters ++
         match fetchOutcome env sql parameters with
         | inr (_, rows) =>
             [BroadcastAfterQuery sql parameters true
                (Some (queryExecutionTime env)) rows None; Wait]
         | inl _ => []
         end ++
         [LogQueryError e sql parameters;
          BroadcastAfterQuery sql parameters false None None (Some e);
          Wait] ++
         match wait_after_error env with
         | None => [PromiseFail (QueryFailedError sql parameters e)]
         | Some _ => []
         end;
       outcome := match wait_after_error env with
                  | None => inr tt
                  | Some c => inl (Thrown c)
                  end |}.
Proof.
  unfold tryError, guarded, tryBlock. rewrite try_catch_eq, bind_eq.
  rewrite runThenFetch_run. cbn [outcome final trace].
  destruct (fetchOutcome env sql parameters) as [e0 | [t rows]];
    run_cases; intros H; inversion H; subst;
    rewrite <- ?app_assoc; reflexivity.
Qed.

Lemma tryError_none (env : Collaborators) (sql : string)
  (parameters : option (list Value)) (t : option StatementHandle)
  (rows : Rows) :
  fetchOutcome env sql parameters = inr (t, rows) ->
  wait_after_query env = None ->
  tryError env sql parameters = None.
Proof.
  intros Hfetch Hwait. unfold tryError. rewrite Hfetch, Hwait. reflexivity.
Qed.

(** X8: when the [try] block raises an error (both fetches raised, or the
    await of the after-query broadcast raised) in a query that reached the
    engine, and the await of the [catch] block returns, then the error is
    logged, the subscribers are told of the failure, [fail] is called once
    with a QueryFailedError that carries the query text, the parameters and
    that error, and [ok] is not called; no rollback is broadcast and no
    slow query is logged; the transaction started by the query is not
    closed: the runner ends inactive, without handle, with the depth one
    more than before if no handle was held. *)
Theorem X8_statement_failure
  (env : Collaborators) (sql : string) (parameters : option (list Value))
  (useStructuredResult : bool) (r : Runner) (e : Error) :
  isReleased r = false ->
  scope_failure env = None ->
  startGoesThrough env r ->
  tryError env sql parameters = Some e ->
  wait_after_error env = None ->
  let run := query env sql parameters useStructuredResult r in
  settlements (trace run) =
    [PromiseFail (QueryFailedError sql parameters e)] /\
  In (LogQueryError e sql parameters) (trace run) /\
  In (BroadcastAfterQuery sql parameters false None None (Some e))
     (trace run) /\
  filter isRollbackBroadcast (trace run) = [] /\
  filter isSlowLog (trace run) = [] /\
  isTransactionActive (final run) = false /\
  transaction (final run) = None /\
  transactionDepth (final run) =
    transactionDepth r +
    match transaction r with
    | None => 1
    | Some _ => 0
    end.
Proof.
  intros Hrel Hopen Hstart Herr Hcatch run.
  destruct (implicitStart_returns env (scope_transaction env) r Hstart)
    as [Hi_out Hi_trace].
  pose proof (implicitStart_final env (scope_transaction env) r Hstart)
    as Hi_final.
  pose proof (guarded_failed env sql parameters useStructuredResult
                (afterImplicitStart (scope_transaction env) r) e Herr) as Hg.
  rewrite Hcatch in Hg.
  assert (outcome (work env sql parameters useStructuredResult
                     (scope_transaction env) r) = inr tt) as Hw.
  { rewrite work_outcome by exact Hi_out. rewrite Hi_final, Hg. reflexivity. }
  assert (trace run =
            LogQuery sql parameters :: BroadcastBeforeQuery sql parameters ::
            startTrace r ++
            fetchTrace env sql parameters ++
            match fetchOutcome env sql parameters with
            | inr (_, rows) =>
                [BroadcastAfterQuery sql parameters true
                   (Some (queryExecutionTime env)) rows None; Wait]
            | inl _ => []
            end ++
            [LogQueryError e sql parameters;
             BroadcastAfterQuery sql parameters false None None (Some e);
             Wait;
             PromiseFail (QueryFailedError sql parameters e)]) as Htrace.
  { subst run.
    rewrite (query_trace_by_work env sql parameters useStructuredResult r
               Hrel).
    rewrite Hopen, Hw, work_trace, Hi_out, Hi_trace, Hi_final, Hg.
    cbn [trace]. rewrite app_nil_r. reflexivity. }
  assert (final run = final (onComplete
                               (afterImplicitStart (scope_transaction env) r)))
    as Hfinal.
  { subst run.
    rewrite (query_final_by_work env sql parameters useStructuredResult r
               Hrel).
    rewrite Hopen, Hw, work_final, Hi_final. reflexivity. }
  rewrite Htrace, Hfinal. rewrite fetchTrace_shape. unfold startTrace.
  unfold afterImplicitStart.
  destruct (transaction r);
    destruct (statementOf env sql parameters),
      (primaryRaised env sql parameters),
      (fetchOutcome env sql parameters) as [e0 | [t rows]];
    cbn; repeat split; try lia; tauto.
Qed.

(** X8 on a transaction object on which every call raises. *)
Lemma X8_statement_failure_witness :
  let env := calm brokenTransaction 0 None in
  let run := query env selectSql None false initialRunner in
  settlements (trace run) =
    [PromiseFail (QueryFailedError selectSql None (Thrown 7%nat))] /\
  In (LogQueryError (Thrown 7%nat) selectSql None) (trace run) /\
  In (BroadcastAfterQuery selectSql None false None None
        (Some (Thrown 7%nat)))
     (trace run) /\
  filter isRollbackBroadcast (trace run) = [] /\
  filter isSlowLog (trace run) = [] /\
  isTransactionActive (final run) = false /\
  transaction (final run) = None /\
  transactionDepth (final run) =
    transactionDepth initialRunner +
    match transaction initialRunner with
    | None => 1
    | Some _ => 0
    end.
Proof.
  apply (X8_statement_failure (calm brokenTransaction 0 None) selectSql None
           false initialRunner (Thrown 7%nat)).
  - reflexivity.
  - reflexivity.
  - intros _. split; reflexivity.
  - reflexivity.
  - reflexivity.
Defined.

(** X9: a query that resolves leaves the transaction it started open in
    the count: the runner ends inactive and without handle, and its depth
    is one more than before when no handle was held at the start, and
    unchanged when one was held. *)
Theorem X9_resolved_query_depth
  (env : Collaborators) (sql : string) (parameters : option (list Value))
  (useStructuredResult : bool) (r : Runner) (v : Resolution) :
  In (PromiseOk v) (trace (query env sql parameters useStructuredResult r)) ->
  let r' := final (query env sql parameters useStructuredResult r) in
  isTransactionActive r' = false /\
  transaction r' = None /\
  transactionDepth r' =
    transactionDepth r +
    match transaction r with
    | None => 1
    | Some _ => 0
    end.
Proof.
  intros Hin r'.
  destruct (query_resolved_inv env sql parameters useStructuredResult r v Hin)
    as (Hrel & Hopen & Hstart & Hwait & t & rows & Hfetch & _).
  destruct (implicitStart_returns env (scope_transaction env) r Hstart)
    as [Hi_out _].
  pose proof (implicitStart_final env (scope_transaction env) r Hstart)
    as Hi_final.
  assert (outcome (work env sql parameters useStructuredResult
                     (scope_transaction env) r) = inr tt) as Hw.
  { rewrite work_outcome by exact Hi_out.
    rewrite (guarded_resolved env sql parameters useStructuredResult _ t rows
               Hfetch Hwait).
    reflexivity. }
  subst r'.
  rewrite (query_final_by_work env sql parameters useStructuredResult r Hrel).
  rewrite Hopen, Hw, work_final, Hi_final. unfold afterImplicitStart.
  destruct (transaction r); cbn; repeat split; lia.
Qed.

(** X9 on a runner on which startTransaction was called: the depth goes
    from 1 to 2. *)
Lemma X9_resolved_query_depth_witness :
  let env := calm selectTransaction 0 None in
  let r' := final (query env selectSql None false startedRunner) in
  isTransactionActive r' = false /\
  transaction r' = None /\
  transactionDepth r' =
    transactionDepth startedRunner +
    match transaction startedRunner with
    | None => 1
    | Some _ => 0
    end.
Proof.
  apply (X9_resolved_query_depth (calm selectTransaction 0 None) selectSql
           None false startedRunner (Plain (RawRows [oneRow]))).
  in_trace.
Defined.

(** X10: when the [try] block raises and then the await of the [catch]
    block raises too, the work callback raises the second error; with
    rollback subscribers that return, the failure callback rolls back and
    [fail] is called once, with the second error as it is, not with a
    QueryFailedError: the statement's own error reaches the logger and the
    subscribers only.  The rollback closes the transaction the query
    started: the depth is what it was when no handle was held before. *)
Theorem X10_catch_await_raises
  (env : Collaborators) (sql : string) (parameters : option (list Value))
  (useStructuredResult : bool) (r : Runner) (e : Error) (c : Cause) :
  isReleased r = false ->
  scope_failure env = None ->
  startGoesThrough env r ->
  transaction r = None ->
  tryError env sql parameters = Some e ->
  wait_after_error env = Some c ->
  subscribers env BeforeTransactionRollback = None ->
  subscribers env AfterTransactionRollback = None ->
  let run := query env sql parameters useStructuredResult r in
  settlements (trace run) = [PromiseFail (Thrown c)] /\
  In (LogQueryError e sql parameters) (trace run) /\
  filter isRollbackBroadcast (trace run) =
    [Broadcast BeforeTransactionRollback;
     Broadcast AfterTransactionRollback] /\
  isTransactionActive (final run) = false /\
  transaction (final run) = None /\
  transactionDepth (final run) = transactionDepth r.
Proof.
  intros Hrel Hopen Hstart Hnone Herr Hcatch Hbefore Hafter run.
  destruct (implicitStart_returns env (scope_transaction env) r Hstart)
    as [Hi_out Hi_trace].
  pose proof (implicitStart_final env (scope_transaction env) r Hstart)
    as Hi_final.
  pose proof (guarded_failed env sql parameters useStructuredResult
                (afterImplicitStart (scope_transaction env) r) e Herr) as Hg.
  rewrite Hcatch in Hg.
  assert (outcome (work env sql parameters useStructuredResult
                     (scope_transaction env) r) = inl (Thrown c)) as Hw.
  { rewrite work_outcome by exact Hi_out. rewrite Hi_final, Hg. reflexivity. }
  pose proof (rollbackTransaction_run env
                (afterImplicitStart (scope_transaction env) r)
                (afterImplicitStart_rollback _ r Hnone)) as Hroll.
  rewrite Hbefore, Hafter in Hroll.
  assert (trace run =
            LogQuery sql parameters :: BroadcastBeforeQuery sql parameters ::
            startTrace r ++
            (fetchTrace env sql parameters ++
             match fetchOutcome env sql parameters with
             | inr (_, rows) =>
                 [BroadcastAfterQuery sql parameters true
                    (Some (queryExecutionTime env)) rows None; Wait]
             | inl _ => []
             end ++
             [LogQueryError e sql parameters;
              BroadcastAfterQuery sql parameters false None None (Some e);
              Wait]) ++
            [Broadcast BeforeTransactionRollback;
             Broadcast AfterTransactionRollback;
             PromiseFail (Thrown c)]) as Htrace.
  { subst run.
    rewrite (query_trace_by_work env sql parameters useStructuredResult r
               Hrel).
    rewrite Hopen, Hw, work_trace, work_final, Hi_out, Hi_trace, Hi_final, Hg.
    cbn [trace]. unfold onFailure. rewrite bind_eq, Hroll.
    cbn [trace outcome final emit app]. rewrite <- !app_assoc.
    reflexivity. }
  assert (final run =
            final (onComplete
                     (closeBookkeeping
                        (afterImplicitStart (scope_transaction env) r))))
    as Hfinal.
  { subst run.
    rewrite (query_final_by_work env sql parameters useStructuredResult r
               Hrel).
    rewrite Hopen, Hw, work_final, Hi_final, onFailure_final, Hroll.
    reflexivity. }
  rewrite Htrace, Hfinal. rewrite fetchTrace_shape. unfold startTrace.
  unfold afterImplicitStart. rewrite Hnone.
  destruct (statementOf env sql parameters),
    (primaryRaised env sql parameters),
    (fetchOutcome env sql parameters) as [e0 | [t rows]];
    cbn; repeat split; try lia; tauto.
Qed.

(** X10 on a transaction object on which every call raises. *)
Lemma X10_catch_await_raises_witness :
  let run := query raisingCatchWait selectSql None false initialRunner in
  settlements (trace run) = [PromiseFail (Thrown 8%nat)] /\
  In (LogQueryError (Thrown 7%nat) selectSql None) (trace run) /\
  filter isRollbackBroadcast (trace run) =
    [Broadcast BeforeTransactionRollback;
     Broadcast AfterTransactionRollback] /\
  isTransactionActive (final run) = false /\
  transaction (final run) = None /\
  transactionDepth (final run) = transactionDepth initialRunner.
Proof.
  apply (X10_catch_await_raises raisingCatchWait selectSql None false
           initialRunner (Thrown 7%nat) 8%nat); try reflexivity.
  intros _. split; reflexivity.
Defined.

(** ** The shaped result of a query that resolves *)

(** X11: for every query that resolves, [affected] is the change count of
    the statement handle when [runAsync] gave one that has it, and absent
    otherwise, whatever the rows and the text; when the text does not start
    with [INSERT INTO], [raw] and [records] are both the fetched rows, in
    their order, when there are any, [raw] is absent when there are none,
    and without a structured result the call resolves with the rows, or
    with the empty sequence, and never with a row identifier. *)
Theorem X11_result_shape
  (env : Collaborators) (sql : string) (parameters : option (list Value))
  (useStructuredResult : bool) (r : Runner) (v : Resolution) :
  In (PromiseOk v) (trace (query env sql parameters useStructuredResult r)) ->
  exists rows,
    let result := shapeResult (statementOf env sql parameters) rows sql in
    In (BroadcastAfterQuery sql parameters true
          (Some (queryEndTime env - queryStartTime env)) rows None)
       (trace (query env sql parameters useStructuredResult r)) /\
    v = resolution useStructuredResult result /\
    affected result =
      match statementOf env sql parameters with
      | Some h => changes h
      | None => None
      end /\
    (isInsert sql = false ->
     (forall row more,
        rows = Some (row :: more) ->
        raw result = Some (RawRows (row :: more)) /\
        records result = Some (row :: more)) /\
     (rows = None \/ rows = Some [] -> raw result = None) /\
     (useStructuredResult = false ->
      v = Plain (RawRows match rows with
                         | Some fetched => fetched
                         | None => []
                         end))).
Proof.
  intros Hin.
  destruct (query_resolved_inv env sql parameters useStructuredResult r v Hin)
    as (Hrel & Hopen & Hstart & Hwait & t & rows & Hfetch & Hv).
  pose proof (fetchOutcome_statement env sql parameters t rows Hfetch) as Ht.
  subst t. exists rows. cbv zeta.
  split; [| split; [exact Hv | split; [apply shapeResult_affected |]]].
  - apply (query_resolved_rows env sql parameters useStructuredResult r
             (statementOf env sql parameters) rows); assumption.
  - intros Hselect.
    pose proof (shapeResult_select (statementOf env sql parameters) rows sql
                  Hselect) as Hraw.
    split; [| split].
    + intros row more ->. split; [exact Hraw |]. apply shapeResult_records.
    + intros [-> | ->]; exact Hraw.
    + intros ->. subst v. unfold resolution. rewrite Hraw.
      destruct rows as [[| row more] |]; reflexivity.
Qed.

(** X11 on a select of one row. *)
Lemma X11_result_shape_witness :
  exists rows,
    let env := calm selectTransaction 0 None in
    let result := shapeResult (statementOf env selectSql None) rows
                    selectSql in
    In (BroadcastAfterQuery selectSql None true
          (Some (queryEndTime env - queryStartTime env)) rows None)
       (trace (query env selectSql None false initialRunner)) /\
    Plain (RawRows [oneRow]) = resolution false result /\
    affected result =
      match statementOf env selectSql None with
      | Some h => changes h
      | None => None
      end /\
    (isInsert selectSql = false ->
     (forall row more,
        rows = Some (row :: more) ->
        raw result = Some (RawRows (row :: more)) /\
        records result = Some (row :: more)) /\
     (rows = None \/ rows = Some [] -> raw result = None) /\
     (false = false ->
      Plain (RawRows [oneRow]) =
        Plain (RawRows match rows with
                       | Some fetched => fetched
                       | None => []
                       end))).
Proof.
  apply (X11_result_shape (calm selectTransaction 0 None) selectSql None
           false initialRunner (Plain (RawRows [oneRow]))).
  in_trace.
Defined.

(** X12: the insert test is the literal one: a text counts as an insert
    exactly when it is the eleven characters [INSERT INTO] followed by
    anything; a text that begins with a space or is written in lower case
    does not. *)
Theorem X12_insert_test_is_literal (sql : string) :
  (isInsert sql = true <->
   exists rest, sql = ("INSERT INTO" ++ rest)%string) /\
  (forall rest, isInsert (" INSERT INTO" ++ rest) = false) /\
  (forall rest, isInsert ("insert into" ++ rest) = false).
Proof.
  split; [apply prefix_append |]. split; intros rest; reflexivity.
Qed.

(** X13: the copying loop of the result set stops after as many turns as
    there are rows and gives the rows back unchanged and in order; started
    at index [i] with [fuel] turns left, it appends the next [fuel] rows
    from [i] on. *)
Theorem X13_copy_loop (rows : list Row) :
  copyRows rows = rows /\
  (forall i fuel resultSet,
     pushRows rows i fuel resultSet =
       resultSet ++ firstn fuel (skipn i rows)).
Proof.
  split; [apply copyRows_same |].
  intros i fuel resultSet. apply pushRows_spec.
Qed.

(** ** The order of the calls *)

(** X14: in a query that resolves, the calls are made in this order: the
    query is logged, the before-query subscribers are told, the implicit
    start is broadcast if no handle was held, the engine is called, the
    after-query subscribers are told of the success with the elapsed time
    and the rows and awaited, the slow query is logged if it is one, and
    [ok] is called last. *)
Theorem X14_resolved_query_order
  (env : Collaborators) (sql : string) (parameters : option (list Value))
  (useStructuredResult : bool) (r : Runner) (v : Resolution) :
  In (PromiseOk v) (trace (query env sql parameters useStructuredResult r)) ->
  exists rows,
    trace (query env sql parameters useStructuredResult r) =
      [LogQuery sql parameters; BroadcastBeforeQuery sql parameters] ++
      match transaction r with
      | None => [Broadcast BeforeTransactionStart;
                 Broadcast AfterTransactionStart]
      | Some _ => []
      end ++
      (RunAsync sql (params_or_empty parameters) ::
       match statementOf env sql parameters with
       | Some _ => [HandleGetAll sql (params_or_empty parameters)]
       | None => []
       end ++
       (if primaryRaised env sql parameters
        then [TransactionGetAll sql (params_or_empty parameters)]
        else [])) ++
      [BroadcastAfterQuery sql parameters true
         (Some (queryEndTime env - queryStartTime env)) rows None; Wait] ++
      (if isSlow (maxQueryExecutionTime env)
            (queryEndTime env - queryStartTime env)
       then [LogQuerySlow (queryEndTime env - queryStartTime env) sql
               parameters]
       else []) ++
      [PromiseOk v].
Proof.
  intros Hin.
  destruct (query_resolved_inv env sql parameters useStructuredResult r v Hin)
    as (Hrel & Hopen & Hstart & Hwait & t & rows & Hfetch & Hv).
  exists rows.
  rewrite (query_resolved env sql parameters useStructuredResult r t rows
             Hrel Hopen Hstart Hfetch Hwait).
  rewrite fetchTrace_shape, <- Hv. reflexivity.
Qed.

(** X14 on a select of one row on a fresh runner. *)
Lemma X14_resolved_query_order_witness :
  exists rows,
    let env := calm selectTransaction 0 None in
    trace (query env selectSql None false initialRunner) =
      [LogQuery selectSql None; BroadcastBeforeQuery selectSql None] ++
      match transaction initialRunner with
      | None => [Broadcast BeforeTransactionStart;
                 Broadcast AfterTransactionStart]
      | Some _ => []
      end ++
      (RunAsync selectSql (params_or_empty None) ::
       match statementOf env selectSql None with
       | Some _ => [HandleGetAll selectSql (params_or_empty None)]
       | None => []
       end ++
       (if primaryRaised env selectSql None
        then [TransactionGetAll selectSql (params_or_empty None)]
        else [])) ++
      [BroadcastAfterQuery selectSql None true
         (Some (queryEndTime env - queryStartTime env)) rows None; Wait] ++
      (if isSlow (maxQueryExecutionTime env)
            (queryEndTime env - queryStartTime env)
       then [LogQuerySlow (queryEndTime env - queryStartTime env) selectSql
               None]
       else []) ++
      [PromiseOk (Plain (RawRows [oneRow]))].
Proof.
  apply (X14_resolved_query_order (calm selectTransaction 0 None) selectSql
           None false initialRunner (Plain (RawRows [oneRow]))).
  in_trace.
Defined.

(** ** The runner when the engine is called *)

Lemma onFailure_failure_events (env : Collaborators) (err : Error)
  (r : Runner) :
  Forall (fun e => isFailureEvent e = true) (trace (onFailure env err r)).
Proof.
  destruct (detached_run (onFailure env err) r) as [_ <-].
  apply onFailure_events.
Qed.

Lemma submission_inv (env : Collaborators) (sql : string)
  (parameters : option (list Value)) (useStructuredResult : bool)
  (r : Runner) :
  existsb isSubmission
    (trace (query env sql parameters useStructuredResult r)) = true ->
  isReleased r = false /\
  scope_failure env = None /\
  outcome (implicitStart env (scope_transaction env) r) = inr tt.
Proof.
  destruct (isReleased r) eqn:Hrel.
  { rewrite query_released by exact Hrel. discriminate. }
  rewrite (query_trace_by_work env sql parameters useStructuredResult r Hrel).
  cbn [existsb isSubmission orb].
  destruct (scope_failure env) as [c |].
  { rewrite (class_existsb_false isFailureEvent isSubmission _
               (onFailure_failure_events _ _ _) failure_not_submission).
    discriminate. }
  rewrite work_trace. unfold work at 1. rewrite bind_eq.
  destruct (outcome (implicitStart env (scope_transaction env) r))
    as [e | []]; [| intros _; repeat split].
  cbn [outcome]. rewrite app_nil_r, existsb_app.
  rewrite (class_existsb_false isStartEvent isSubmission _
             (implicitStart_events _ _ _) start_not_submission).
  rewrite (class_existsb_false isFailureEvent isSubmission _
             (onFailure_failure_events _ _ _) failure_not_submission).
  discriminate.
Qed.

(** X15: a statement reaches the engine only after the implicit start has
    returned; when no handle was held at the start of the query, the
    runner in which the engine is called is active, holds the scope's
    transaction object as its handle and has a depth one more than before;
    the work callback leaves the runner that way. *)
Theorem X15_submitted_in_active_runner
  (env : Collaborators) (sql : string) (parameters : option (list Value))
  (useStructuredResult : bool) (r : Runner) :
  transaction r = None ->
  existsb isSubmission
    (trace (query env sql parameters useStructuredResult r)) = true ->
  let mid := final (implicitStart env (scope_transaction env) r) in
  outcome (implicitStart env (scope_transaction env) r) = inr tt /\
  isTransactionActive mid = true /\
  transaction mid = Some (scope_transaction env) /\
  transactionDepth mid = transactionDepth r + 1 /\
  final (work env sql parameters useStructuredResult (scope_transaction env)
           r) = mid.
Proof.
  intros Hnone Hsub mid.
  destruct (submission_inv env sql parameters useStructuredResult r Hsub)
    as (_ & _ & Hi).
  pose proof (implicitStart_final env (scope_transaction env) r
                (implicitStart_returned env (scope_transaction env) r Hi))
    as Hfinal.
  subst mid. rewrite work_final, Hfinal. unfold afterImplicitStart.
  rewrite Hnone. repeat split. exact Hi.
Qed.

(** X15 on a select on a fresh runner. *)
Lemma X15_submitted_in_active_runner_witness :
  let env := calm selectTransaction 0 None in
  let mid := final (implicitStart env (scope_transaction env) initialRunner)
  in
  outcome (implicitStart env (scope_transaction env) initialRunner) =
    inr tt /\
  isTransactionActive mid = true /\
  transaction mid = Some (scope_transaction env) /\
  transactionDepth mid = transactionDepth initialRunner + 1 /\
  final (work env selectSql None false (scope_transaction env)
           initialRunner) = mid.
Proof.
  apply (X15_submitted_in_active_runner (calm selectTransaction 0 None)
           selectSql None false initialRunner); reflexivity.
Defined.

(** ** Between calls *)

(** X16: between calls the runner never holds an engine handle, whatever
    the calls were and whatever subscribers and engine did; there the second
    half of the guard of commit and rollback plays no part: both are refused
    with TransactionNotStartedError exactly when the runner is inactive. *)
Theorem X16_no_handle_between_calls (env : Collaborators) (r : Runner) :
  reachable r ->
  transaction r = None /\
  (outcome (commitTransaction env r) = inl TransactionNotStartedError <->
   isTransactionActive r = false) /\
  (outcome (rollbackTransaction env r) = inl TransactionNotStartedError <->
   isTransactionActive r = false).
Proof.
  intros Hr. destruct (reachable_settled r Hr) as (Hnone & _ & _).
  assert (notStarted r = negb (isTransactionActive r)) as Hguard.
  { unfold notStarted. rewrite Hnone. apply andb_true_r. }
  split; [exact Hnone |].
  split; split.
  - intros Hout. destruct (isTransactionActive r) eqn:Ha; [| reflexivity].
    destruct (commitTransaction_accepted env r Hguard) as [Hne _].
    contradiction.
  - intros Ha. rewrite Ha in Hguard.
    rewrite (commitTransaction_refused env r Hguard). reflexivity.
  - intros Hout. destruct (isTransactionActive r) eqn:Ha; [| reflexivity].
    destruct (rollbackTransaction_accepted env r Hguard) as [Hne _].
    contradiction.
  - intros Ha. rewrite Ha in Hguard.
    rewrite (rollbackTransaction_refused env r Hguard). reflexivity.
Qed.

(** X16 on the runner after a start, a query and a rollback. *)
Lemma X16_no_handle_between_calls_witness :
  let env := calm selectTransaction 0 None in
  let r := performAll [(env, CallStart);
                       (env, CallQuery selectSql None false);
                       (env, CallRollback)] initialRunner in
  transaction r = None /\
  (outcome (commitTransaction env r) = inl TransactionNotStartedError <->
   isTransactionActive r = false) /\
  (outcome (rollbackTransaction env r) = inl TransactionNotStartedError <->
   isTransactionActive r = false).
Proof.
  intros env r.
  apply (X16_no_handle_between_calls env r).
  exists [(env, CallStart); (env, CallQuery selectSql None false);
          (env, CallRollback)].
  reflexivity.
Defined.

(** ** The depth across queries *)

Lemma rollbackTransaction_depth (env : Collaborators) (r : Runner) :
  let r' := final (rollbackTransaction env r) in
  transactionDepth r - 1 <= transactionDepth r' <= transactionDepth r /\
  (notStarted r = true -> r' = r).
Proof.
  intros r'. subst r'. destruct (notStarted r) eqn:Hn.
  - rewrite rollbackTransaction_refused by exact Hn. cbn. split; [lia | auto].
  - rewrite rollbackTransaction_run by exact Hn.
    destruct (subscribers env BeforeTransactionRollback); cbn;
      (split; [lia | discriminate]).
Qed.

Lemma implicitStart_depth (env : Collaborators) (txn : ITransaction)
  (r : Runner) :
  let r' := final (implicitStart env txn r) in
  transactionDepth r <= transactionDepth r' <= transactionDepth r + 1 /\
  (notStarted r = true ->
   transactionDepth r' = transactionDepth r + 1 \/
   (notStarted r' = true /\ transactionDepth r' = transactionDepth r)).
Proof.
  intros r'. subst r'. destruct (transaction r) eqn:Ht.
  - rewrite implicitStart_held by congruence. cbn. split; [lia | auto].
  - rewrite implicitStart_fresh by exact Ht.
    destruct (subscribers env BeforeTransactionStart);
      [| destruct (subscribers env AfterTransactionStart)];
      cbn; (split; [lia |]); intros Hn; auto.
    right. split; [| reflexivity].
    unfold notStarted. cbn. rewrite Ht. reflexivity.
Qed.

Lemma query_depth_step (env : Collaborators) (sql : string)
  (parameters : option (list Value)) (useStructuredResult : bool)
  (r : Runner) :
  let r' := final (query env sql parameters useStructuredResult r) in
  transactionDepth r - 1 <= transactionDepth r' <= transactionDepth r + 1 /\
  (notStarted r = true ->
   transactionDepth r <= transactionDepth r' /\ notStarted r' = true).
Proof.
  intros r'. subst r'. destruct (isReleased r) eqn:Hrel.
  { rewrite query_released by exact Hrel. cbn. split; [lia |].
    intros H. split; [lia | exact H]. }
  rewrite (query_final_by_work env sql parameters useStructuredResult r Hrel).
  set (X := match scope_failure env with
            | Some c => final (onFailure env (Thrown c) r)
            | None => _
            end).
  assert (transactionDepth r - 1 <= transactionDepth X
            <= transactionDepth r + 1 /\
          (notStarted r = true -> transactionDepth r <= transactionDepth X))
    as HX.
  { subst X. destruct (scope_failure env) as [c |].
    - rewrite onFailure_final.
      destruct (rollbackTransaction_depth env r) as [Hb Hsame].
      split; [lia |]. intros Hn. rewrite (Hsame Hn). lia.
    - rewrite work_final.
      destruct (implicitStart_depth env (scope_transaction env) r)
        as [Hi Hi'].
      set (r1 := final (implicitStart env (scope_transaction env) r)) in *.
      destruct (outcome (work env sql parameters useStructuredResult
                           (scope_transaction env) r)) as [e | []].
      + rewrite onFailure_final.
        destruct (rollbackTransaction_depth env r1) as [Hb Hsame].
        split; [lia |]. intros Hn.
        destruct (Hi' Hn) as [Hup | [Hn1 Heq]]; [lia |].
        rewrite (Hsame Hn1). lia.
      + split; [lia |]. intros _. lia. }
  destruct HX as [Hbound Hlow]. cbn. split; [exact Hbound |].
  intros Hn. split; [exact (Hlow Hn) | reflexivity].
Qed.

Lemma queries_depth (calls : list (Collaborators * Call)) (r : Runner) :
  forallb (fun call => isQuery (snd call)) calls = true ->
  notStarted r = true ->
  transactionDepth r <= transactionDepth (performAll calls r)
    <= transactionDepth r + Z.of_nat (List.length calls).
Proof.
  revert r. induction calls as [| [env c] rest IH]; intros r Hall Hn.
  - cbn. lia.
  - cbn [forallb snd] in Hall. apply andb_prop in Hall.
    destruct Hall as [Hq Hrest].
    destruct c as [| | | sql parameters useStructuredResult];
      try discriminate.
    cbn [performAll perform].
    destruct (query_depth_step env sql parameters useStructuredResult r)
      as [Hbound Hlow].
    destruct (Hlow Hn) as [Hge Hn'].
    specialize (IH _ Hrest Hn').
    cbn [List.length]. lia.
Qed.

(** X17: a query moves the depth by at most one; on a runner that is
    inactive and holds no handle it never lowers it.  Hence after any
    sequence of queries on a fresh runner, whatever subscribers and engine
    did, the depth lies between 0 and the number of queries. *)
Theorem X17_depth_across_queries
  (env : Collaborators) (sql : string) (parameters : option (list Value))
  (useStructuredResult : bool) (r : Runner) :
  let r' := final (query env sql parameters useStructuredResult r) in
  transactionDepth r - 1 <= transactionDepth r' <= transactionDepth r + 1 /\
  (isTransactionActive r = false -> transaction r = None ->
   transactionDepth r <= transactionDepth r') /\
  (forall calls,
     forallb (fun call => isQuery (snd call)) calls = true ->
     0 <= transactionDepth (performAll calls initialRunner)
       <= Z.of_nat (List.length calls)).
Proof.
  intros r'.
  destruct (query_depth_step env sql parameters useStructuredResult r)
    as [Hbound Hlow].
  split; [exact Hbound |]. split.
  - intros Ha Ht. apply Hlow. apply notStarted_spec. split; assumption.
  - intros calls Hall.
    apply (queries_depth calls initialRunner Hall eq_refl).
Qed.

(** X17 on a fresh runner and on two queries, the second of which fails. *)
Lemma X17_depth_across_queries_witness :
  let env := calm selectTransaction 0 None in
  (transactionDepth initialRunner <=
     transactionDepth (final (query env selectSql None false initialRunner))) /\
  (0 <= transactionDepth
          (performAll [(env, CallQuery selectSql None false);
                       (raisingCatchWait, CallQuery selectSql None false)]
             initialRunner)
     <= Z.of_nat 2).
Proof.
  intros env.
  destruct (X17_depth_across_queries env selectSql None false initialRunner)
    as (_ & Hlow & Hseq).
  split.
  - apply Hlow; reflexivity.
  - apply (Hseq [(env, CallQuery selectSql None false);
                 (raisingCatchWait, CallQuery selectSql None false)]).
    reflexivity.
Defined.
